(** * GPU/Common/VertexDecoderCommon.h

    A shallow embedding of the decoded-vertex side of the vertex decoder:
    the decoded format tags and [DecVtxFormat], [RoundUp4],
    [IndexConverter], the [VertexReader] accessors and the step pipeline
    of [VertexDecoder].

    Conventions.
    - Fixed-width integers are values of [Z]; where the source can wrap,
      the wrap-around is written out ([int_wrap]).
    - [float] is IEEE 754 binary32, taken from [SpecFloat] at precision 24
      and maximal exponent 128, rounding to nearest even.  NaN payloads
      are not represented.
    - Memory is a flat little-endian byte list; a pointer is an offset
      into it.  A load outside the list is undefined behaviour in the
      source and [None] here. *)

From Stdlib Require Import ZArith List Bool String Lia.
From Stdlib Require Import Strings.Byte.
From Stdlib Require Import Floats.SpecFloat.
Import ListNotations.

Local Open Scope Z_scope.

(** ** Machine integers *)

(** Two's complement reading of the low [w] bits of [z]. *)
Definition signed (w : Z) (z : Z) : Z :=
  let m := z mod 2 ^ w in
  if m <? 2 ^ (w - 1) then m else m - 2 ^ w.

(** [int] arithmetic: a result is reduced to 32-bit two's complement, which
    is what every supported target does on signed overflow. *)
Definition int_wrap (z : Z) : Z := signed 32 z.

Definition INT_MAX : Z := 2147483647.

(** ** binary32 *)

Module F32.

Definition prec : Z := 24.
Definition emax : Z := 128.

Definition float : Type := spec_float.

(** Conversion of an integer to [float] (exact below [2^24]). *)
Definition of_int (z : Z) : float := binary_normalize prec emax z 0 false.

Definition mul : float -> float -> float := SFmul prec emax.
Definition div : float -> float -> float := SFdiv prec emax.

Definition ltb : float -> float -> bool := SFltb.
Definition gtb (x y : float) : bool := SFltb y x.
Definition leb : float -> float -> bool := SFleb.
Definition eqb : float -> float -> bool := SFeqb.

Definition zero : float := S754_zero false.
Definition one : float := of_int 1.

(** The value denoted by a 32-bit pattern: sign bit 31, biased exponent
    in bits 23..30, fraction in bits 0..22. *)
Definition of_bits (w : Z) : float :=
  let s := Z.testbit w 31 in
  let e := Z.land (Z.shiftr w 23) 255 in
  let f := Z.land w 8388607 in
  if e =? 0 then
    match f with
    | Zpos m => S754_finite s m (-149)
    | _ => S754_zero s
    end
  else if e =? 255 then
    (if f =? 0 then S754_infinity s else S754_nan)
  else
    match f + 8388608 with
    | Zpos m => S754_finite s m (e - 150)
    | _ => S754_nan
    end.

(** The cast [(int)x]: truncation toward zero.  The cast is undefined
    in the source for NaN, the infinities and values outside [int]. *)
Definition to_int (x : float) : option Z :=
  match x with
  | S754_zero _ => Some 0
  | S754_finite s m e =>
      let a := if 0 <=? e then Zpos m * 2 ^ e else Zpos m / 2 ^ (- e) in
      let v := if s then - a else a in
      if (- 2147483648 <=? v) && (v <=? 2147483647) then Some v else None
  | _ => None
  end.

(** The conversion of a float to [u8]: truncation toward zero.  It is
    undefined in the source when the truncated value is not in 0..255. *)
Definition to_u8 (x : float) : option Z :=
  match x with
  | S754_zero _ => Some 0
  | S754_finite s m e =>
      let a := if 0 <=? e then Zpos m * 2 ^ e else Zpos m / 2 ^ (- e) in
      let v := if s then - a else a in
      if (0 <=? v) && (v <=? 255) then Some v else None
  | _ => None
  end.

End F32.

Abbreviation float := F32.float.

(** ** Memory *)

Definition Memory : Type := list byte.

Definition byte_val (b : byte) : Z := Z.of_N (Byte.to_N b).

(** Little-endian value of a byte string. *)
Fixpoint le_value (bs : list byte) : Z :=
  match bs with
  | [] => 0
  | b :: t => byte_val b + 256 * le_value t
  end.

(** The byte of value [z mod 256]. *)
Definition byte_of (z : Z) : byte :=
  match Byte.of_N (Z.to_N (z mod 256)) with
  | Some b => b
  | None => x00
  end.

(** Little-endian encoding of [v] on [n] bytes. *)
Fixpoint le_bytes (n : nat) (v : Z) : list byte :=
  match n with
  | O => []
  | S n' => byte_of v :: le_bytes n' (v / 256)
  end.

(** An array of [w]-byte little-endian elements [elts] lies at address
    [a] of the memory. *)
Definition array_at (m : Memory) (a : Z) (w : nat) (elts : list Z) : Prop :=
  exists pre post,
    m = pre ++ flat_map (le_bytes w) elts ++ post /\
    a = Z.of_nat (List.length pre).

(** The [n] bytes at address [a], when they all lie inside the memory. *)
Definition load_bytes (m : Memory) (a : Z) (n : nat) : option (list byte) :=
  if (0 <=? a) && (a + Z.of_nat n <=? Z.of_nat (List.length m))
  then Some (firstn n (skipn (Z.to_nat a) m))
  else None.

Definition load_u8 (m : Memory) (a : Z) : option Z :=
  option_map le_value (load_bytes m a 1).
Definition load_u16 (m : Memory) (a : Z) : option Z :=
  option_map le_value (load_bytes m a 2).
Definition load_u32 (m : Memory) (a : Z) : option Z :=
  option_map le_value (load_bytes m a 4).
Definition load_s8 (m : Memory) (a : Z) : option Z :=
  option_map (signed 8) (load_u8 m a).
Definition load_s16 (m : Memory) (a : Z) : option Z :=
  option_map (signed 16) (load_u16 m a).
Definition load_float (m : Memory) (a : Z) : option float :=
  option_map F32.of_bits (load_u32 m a).

(** ** Decoded vertex formats *)

Definition DEC_NONE : Z := 0.
Definition DEC_FLOAT_1 : Z := 1.
Definition DEC_FLOAT_2 : Z := 2.
Definition DEC_FLOAT_3 : Z := 3.
Definition DEC_FLOAT_4 : Z := 4.
Definition DEC_S8_3 : Z := 5.
Definition DEC_S16_3 : Z := 6.
Definition DEC_U8_1 : Z := 7.
Definition DEC_U8_2 : Z := 8.
Definition DEC_U8_3 : Z := 9.
Definition DEC_U8_4 : Z := 10.
Definition DEC_U16_1 : Z := 11.
Definition DEC_U16_2 : Z := 12.
Definition DEC_U16_3 : Z := 13.
Definition DEC_U16_4 : Z := 14.

Record DecVtxFormat : Type := {
  uvfmt : Z; uvoff : Z;
  c0fmt : Z; c0off : Z;
  c1fmt : Z; c1off : Z;
  nrmfmt : Z; nrmoff : Z;
  posfmt : Z; posoff : Z;
  stride : Z;
  id : Z
}.

Definition RoundUp4 (x : Z) : Z :=
  Z.land (int_wrap (x + 3)) (Z.lnot 3).

(** Modelled from the spec: [DecFmtSize] is declared in this header and
    defined in another translation unit.  The size is that
    of the components of the tag (one to four 32-bit floats, three signed
    or one to four unsigned 8-bit or 16-bit components) taken to the
    4-byte granularity of the decoded layout; an absent or unknown tag
    occupies nothing. *)
Definition DecFmtSize (fmt : Z) : Z :=
  if fmt =? DEC_NONE then 0
  else if fmt =? DEC_FLOAT_1 then 4
  else if fmt =? DEC_FLOAT_2 then 8
  else if fmt =? DEC_FLOAT_3 then 12
  else if fmt =? DEC_FLOAT_4 then 16
  else if fmt =? DEC_S8_3 then 4
  else if fmt =? DEC_S16_3 then 8
  else if fmt =? DEC_U8_1 then 4
  else if fmt =? DEC_U8_2 then 4
  else if fmt =? DEC_U8_3 then 4
  else if fmt =? DEC_U8_4 then 4
  else if fmt =? DEC_U16_1 then 4
  else if fmt =? DEC_U16_2 then 4
  else if fmt =? DEC_U16_3 then 8
  else if fmt =? DEC_U16_4 then 8
  else 0.

(** ** Vertex type bits *)

(** Modelled from the spec: the vertex type masks come from
    GPU/ge_constants.h, a header outside this one.  The packed descriptor
    carries the index width (none, 8, 16 or 32-bit) in bits 11..12 and the
    through-mode flag in bit 23. *)
Definition GE_VTYPE_IDX_NONE : Z := Z.shiftl 0 11.

(** Modelled from the spec: the 8-bit index width. *)
Definition GE_VTYPE_IDX_8BIT : Z := Z.shiftl 1 11.

(** Modelled from the spec: the 16-bit index width. *)
Definition GE_VTYPE_IDX_16BIT : Z := Z.shiftl 2 11.

(** Modelled from the spec: the 32-bit index width. *)
Definition GE_VTYPE_IDX_32BIT : Z := Z.shiftl 3 11.

(** Modelled from the spec: the bits of the index width. *)
Definition GE_VTYPE_IDX_MASK : Z := Z.shiftl 3 11.

(** Modelled from the spec: the through-mode flag. *)
Definition GE_VTYPE_THROUGH : Z := Z.shiftl 1 23.

(** ** IndexConverter *)

Module IndexConverter.

(** The union of the four pointers is one address; [indices8],
    [indices16] and [indices32] read it at their element width. *)
Record t : Type := {
  indices : Z;
  indexType : Z
}.

Definition make (vertType : Z) (indices : Z) : t :=
  {| indices := indices; indexType := Z.land vertType GE_VTYPE_IDX_MASK |}.

Definition convert (m : Memory) (c : t) (index : Z) : option Z :=
  if indexType c =? GE_VTYPE_IDX_8BIT then
    load_u8 m (indices c + index)
  else if indexType c =? GE_VTYPE_IDX_16BIT then
    load_u16 m (indices c + 2 * index)
  else if indexType c =? GE_VTYPE_IDX_32BIT then
    load_u32 m (indices c + 4 * index)
  else
    Some index.

End IndexConverter.

(** ** Diagnostics *)

(** A diagnostic that was raised: the name of the report it belongs to,
    its format string and its argument. *)
Record Diagnostic : Type := {
  d_name : string;
  d_message : string;
  d_arg : Z
}.

(** The state behind the reporting macros: the names whose one-time
    report has been spent, and the diagnostics raised so far, oldest
    first. *)
Record Reporting : Type := {
  reported : list string;
  diagnostics : list Diagnostic
}.

Definition no_reports : Reporting := {| reported := []; diagnostics := [] |}.

(** Computations of the reader: they may emit diagnostics, and they fail
    ([None]) on a load outside the memory. *)
Definition Eff (A : Type) : Type := Reporting -> option (A * Reporting).

Definition ret {A : Type} (a : A) : Eff A := fun s => Some (a, s).

Definition bind {A B : Type} (c : Eff A) (k : A -> Eff B) : Eff B :=
  fun s => match c s with
           | Some (a, s') => k a s'
           | None => None
           end.

Definition lift {A : Type} (o : option A) : Eff A :=
  fun s => match o with
           | Some a => Some (a, s)
           | None => None
           end.

Notation "x <- c ;; k" := (bind c (fun x => k))
  (at level 61, c at next level, right associativity).
Notation "c ;;; k" := (bind c (fun _ => k))
  (at level 61, right associativity).
Notation "c >>= k" := (bind c k) (at level 50, left associativity).

(** The value a computation returns, the report state apart. *)
Definition result {A : Type} (r : option (A * Reporting)) : option A :=
  option_map fst r.

(** Modelled from the spec: [ERROR_LOG_REPORT_ONCE(n, t, fmt, arg)] comes
    from Common/Log.h and Core/Reporting.h, headers outside this one.  The
    diagnostic is raised the first time the report named [n] is reached
    and never again; raising it never stops the caller. *)
Definition ERROR_LOG_REPORT_ONCE (n : string) (msg : string) (arg : Z)
  : Eff unit :=
  fun s =>
    if existsb (String.eqb n) (reported s) then Some (tt, s)
    else Some (tt, {| reported := n :: reported s;
                      diagnostics :=
                        diagnostics s
                        ++ [{| d_name := n; d_message := msg;
                               d_arg := arg |}] |}).

(** [for (int i = 0; i < n; i++) out[i] = body(i)], as the list of the
    elements written. *)
Fixpoint for_from {A : Type} (i : Z) (n : nat) (body : Z -> Eff A)
  : Eff (list A) :=
  match n with
  | O => ret []
  | S n' => x <- body i ;; xs <- for_from (i + 1) n' body ;; ret (x :: xs)
  end.

Definition for_i {A : Type} (n : nat) (body : Z -> Eff A) : Eff (list A) :=
  for_from 0 n body.

(** [memcpy(out, src, 4 * n)] into a [float] array, as the [n] floats the
    destination then holds. *)
Definition memcpy_floats (m : Memory) (src : Z) (n : nat) : Eff (list float) :=
  for_i n (fun i => lift (load_float m (src + 4 * i))).

(** [memset(out, 0, sizeof(float) * n)]: [n] floats of all-zero bits. *)
Definition memset_floats (n : nat) : list float := repeat (F32.of_bits 0) n.

(** [a[i] = v] on an array held as a list. *)
Fixpoint array_set {A : Type} (a : list A) (i : nat) (v : A) : list A :=
  match a, i with
  | [], _ => []
  | _ :: t, O => v :: t
  | x :: t, S i' => x :: array_set t i' v
  end.

(** ** VertexReader *)

Module VertexReader.

Record t : Type := {
  base_ : Z;
  data_ : Z;
  decFmt_ : DecVtxFormat;
  vtype_ : Z
}.

Definition make (base : Z) (decFmt : DecVtxFormat) (vtype : Z) : t :=
  {| base_ := base; data_ := base; decFmt_ := decFmt; vtype_ := vtype |}.

Definition hasColor0 (r : t) : bool := negb (c0fmt (decFmt_ r) =? 0).
Definition hasColor1 (r : t) : bool := negb (c1fmt (decFmt_ r) =? 0).
Definition hasNormal (r : t) : bool := negb (nrmfmt (decFmt_ r) =? 0).
Definition hasUV (r : t) : bool := negb (uvfmt (decFmt_ r) =? 0).
Definition isThrough (r : t) : bool :=
  negb (Z.land (vtype_ r) GE_VTYPE_THROUGH =? 0).

Definition Goto (r : t) (index : Z) : t :=
  {| base_ := base_ r;
     data_ := base_ r + int_wrap (index * stride (decFmt_ r));
     decFmt_ := decFmt_ r;
     vtype_ := vtype_ r |}.

(** A float literal with an integral value. *)
Definition lit (n : Z) : float := F32.of_int n.

Definition ReadPos (m : Memory) (r : t) : Eff (list float) :=
  let fmt := posfmt (decFmt_ r) in
  let a := data_ r + posoff (decFmt_ r) in
  if fmt =? DEC_FLOAT_3 then
    pos <- memcpy_floats m a 3 ;;
    if isThrough r then
      (* Integer value passed in a float. Clamped to 0, 65535. *)
      n <- lift (F32.to_int (nth 2 pos F32.zero)) ;;
      let z := F32.mul (F32.of_int n) (F32.div (lit 1) (lit 65535)) in
      ret (array_set pos 2
             (if F32.gtb z (lit 1) then lit 1
              else if F32.ltb z F32.zero then F32.zero else z))
    else ret pos
  else if fmt =? DEC_S16_3 then
    (* X and Y are signed 16 bit, Z is unsigned 16 bit *)
    if isThrough r then
      xy <- for_i 2 (fun i =>
              s <- lift (load_s16 m (a + 2 * i)) ;; ret (F32.of_int s)) ;;
      u2 <- lift (load_u16 m (a + 2 * 2)) ;;
      ret (xy ++ [F32.mul (F32.of_int u2) (F32.div (lit 1) (lit 65535))])
    else
      for_i 3 (fun i =>
        s <- lift (load_s16 m (a + 2 * i)) ;;
        ret (F32.mul (F32.of_int s) (F32.div (lit 1) (lit 32768))))
  else if fmt =? DEC_S8_3 then
    (* X and Y are signed 8 bit, Z is unsigned 8 bit *)
    if isThrough r then
      xy <- for_i 2 (fun i =>
              b <- lift (load_s8 m (a + i)) ;; ret (F32.of_int b)) ;;
      u2 <- lift (load_u8 m (a + 2)) ;;
      ret (xy ++ [F32.mul (F32.of_int u2) (F32.div (lit 1) (lit 255))])
    else
      for_i 3 (fun i =>
        b <- lift (load_s8 m (a + i)) ;;
        ret (F32.mul (F32.of_int b) (F32.div (lit 1) (lit 128))))
  else
    ERROR_LOG_REPORT_ONCE "fmtpos" "Reader: Unsupported Pos Format %d" fmt ;;;
    ret (memset_floats 3).

Definition ReadPosThroughZ16 (m : Memory) (r : t) : Eff (list float) :=
  let fmt := posfmt (decFmt_ r) in
  let a := data_ r + posoff (decFmt_ r) in
  if fmt =? DEC_FLOAT_3 then
    pos <- memcpy_floats m a 3 ;;
    if isThrough r then
      (* Integer value passed in a float. Clamped to 0, 65535. *)
      n <- lift (F32.to_int (nth 2 pos F32.zero)) ;;
      let z := F32.of_int n in
      ret (array_set pos 2
             (if F32.gtb z (lit 65535) then lit 65535
              else if F32.ltb z F32.zero then F32.zero else z))
    else ret pos
  else if fmt =? DEC_S16_3 then
    (* X and Y are signed 16 bit, Z is unsigned 16 bit *)
    if isThrough r then
      xy <- for_i 2 (fun i =>
              s <- lift (load_s16 m (a + 2 * i)) ;; ret (F32.of_int s)) ;;
      u2 <- lift (load_u16 m (a + 2 * 2)) ;;
      ret (xy ++ [F32.of_int u2])
    else
      for_i 3 (fun i =>
        s <- lift (load_s16 m (a + 2 * i)) ;;
        ret (F32.mul (F32.of_int s) (F32.div (lit 1) (lit 32768))))
  else if fmt =? DEC_S8_3 then
    (* X and Y are signed 8 bit, Z is unsigned 8 bit *)
    if isThrough r then
      xy <- for_i 2 (fun i =>
              b <- lift (load_s8 m (a + i)) ;; ret (F32.of_int b)) ;;
      u2 <- lift (load_u8 m (a + 2)) ;;
      ret (xy ++ [F32.of_int u2])
    else
      for_i 3 (fun i =>
        b <- lift (load_s8 m (a + i)) ;;
        ret (F32.mul (F32.of_int b) (F32.div (lit 1) (lit 128))))
  else
    ERROR_LOG_REPORT_ONCE "fmtz16" "Reader: Unsupported Pos Format %d" fmt ;;;
    ret (memset_floats 3).

Definition ReadNrm (m : Memory) (r : t) : Eff (list float) :=
  let fmt := nrmfmt (decFmt_ r) in
  let a := data_ r + nrmoff (decFmt_ r) in
  if fmt =? DEC_FLOAT_3 then
    for_i 3 (fun i => lift (load_float m (a + 4 * i)))
  else if fmt =? DEC_S16_3 then
    for_i 3 (fun i =>
      s <- lift (load_s16 m (a + 2 * i)) ;;
      ret (F32.mul (F32.of_int s) (F32.div (lit 1) (lit 32767))))
  else if fmt =? DEC_S8_3 then
    for_i 3 (fun i =>
      b <- lift (load_s8 m (a + i)) ;;
      ret (F32.mul (F32.of_int b) (F32.div (lit 1) (lit 127))))
  else
    ERROR_LOG_REPORT_ONCE "fmtnrm" "Reader: Unsupported Nrm Format %d" fmt ;;;
    ret (memset_floats 3).

Definition ReadUV (m : Memory) (r : t) : Eff (list float) :=
  let fmt := uvfmt (decFmt_ r) in
  let a := data_ r + uvoff (decFmt_ r) in
  if fmt =? DEC_U8_2 then
    b0 <- lift (load_u8 m (a + 0)) ;;
    b1 <- lift (load_u8 m (a + 1)) ;;
    ret [F32.mul (F32.of_int b0) (F32.div (lit 1) (lit 128));
         F32.mul (F32.of_int b1) (F32.div (lit 1) (lit 128))]
  else if fmt =? DEC_U16_2 then
    s0 <- lift (load_u16 m (a + 2 * 0)) ;;
    s1 <- lift (load_u16 m (a + 2 * 1)) ;;
    ret [F32.mul (F32.of_int s0) (F32.div (lit 1) (lit 32768));
         F32.mul (F32.of_int s1) (F32.div (lit 1) (lit 32768))]
  else if fmt =? DEC_FLOAT_2 then
    f0 <- lift (load_float m (a + 4 * 0)) ;;
    f1 <- lift (load_float m (a + 4 * 1)) ;;
    ret [f0; f1]
  else
    ERROR_LOG_REPORT_ONCE "fmtuv" "Reader: Unsupported UV Format %d" fmt ;;;
    ret (memset_floats 2).

Definition ReadColor0 (m : Memory) (r : t) : Eff (list float) :=
  let fmt := c0fmt (decFmt_ r) in
  let a := data_ r + c0off (decFmt_ r) in
  if fmt =? DEC_U8_4 then
    for_i 4 (fun i =>
      b <- lift (load_u8 m (a + i)) ;;
      ret (F32.mul (F32.of_int b) (F32.div (lit 1) (lit 255))))
  else if fmt =? DEC_FLOAT_4 then
    memcpy_floats m a 4
  else
    ERROR_LOG_REPORT_ONCE "fmtc0" "Reader: Unsupported C0 Format %d" fmt ;;;
    ret (memset_floats 4).

Definition ReadColor1 (m : Memory) (r : t) : Eff (list float) :=
  let fmt := c1fmt (decFmt_ r) in
  let a := data_ r + c1off (decFmt_ r) in
  if fmt =? DEC_U8_4 then
    for_i 3 (fun i =>
      b <- lift (load_u8 m (a + i)) ;;
      ret (F32.mul (F32.of_int b) (F32.div (lit 1) (lit 255))))
  else if fmt =? DEC_FLOAT_4 then
    memcpy_floats m a 3
  else
    ERROR_LOG_REPORT_ONCE "fmtc1" "Reader: Unsupported C1 Format %d" fmt ;;;
    ret (memset_floats 3).

Definition ReadColor0_8888 (m : Memory) (r : t) : Eff (list Z) :=
  let fmt := c0fmt (decFmt_ r) in
  let a := data_ r + c0off (decFmt_ r) in
  if fmt =? DEC_U8_4 then
    for_i 4 (fun i => lift (load_u8 m (a + i)))
  else if fmt =? DEC_FLOAT_4 then
    for_i 4 (fun i =>
      f <- lift (load_float m (a + 4 * i)) ;;
      lift (F32.to_u8 (F32.mul f (lit 255))))
  else
    ERROR_LOG_REPORT_ONCE "fmtc0_8888" "Reader: Unsupported C0 Format %d"
                          fmt ;;;
    ret (repeat 0 4).

End VertexReader.

(** ** VertexDecoder *)

(** The member functions a [StepFunction] can point to. *)
Inductive StepFunction : Type :=
| Step_WeightsU8Skin | Step_WeightsU16Skin | Step_WeightsFloatSkin
| Step_TcU8ToFloat | Step_TcU16ToFloat | Step_TcFloat
| Step_TcU8Prescale | Step_TcU16Prescale | Step_TcU16DoublePrescale
| Step_TcFloatPrescale
| Step_TcU16DoubleToFloat | Step_TcU16ThroughToFloat
| Step_TcU16ThroughDoubleToFloat | Step_TcFloatThrough
| Step_TcU8MorphToFloat | Step_TcU16MorphToFloat
| Step_TcU16DoubleMorphToFloat | Step_TcFloatMorph
| Step_TcU8PrescaleMorph | Step_TcU16PrescaleMorph
| Step_TcU16DoublePrescaleMorph | Step_TcFloatPrescaleMorph
| Step_ColorInvalid | Step_Color4444 | Step_Color565 | Step_Color5551
| Step_Color8888
| Step_Color4444Morph | Step_Color565Morph | Step_Color5551Morph
| Step_Color8888Morph
| Step_NormalS8 | Step_NormalS8ToFloat | Step_NormalS16 | Step_NormalFloat
| Step_NormalS8Skin | Step_NormalS16Skin | Step_NormalFloatSkin
| Step_NormalS8Morph | Step_NormalS16Morph | Step_NormalFloatMorph
| Step_NormalS8MorphSkin | Step_NormalS16MorphSkin | Step_NormalFloatMorphSkin
| Step_PosS8 | Step_PosS16 | Step_PosFloat
| Step_PosS8Skin | Step_PosS16Skin | Step_PosFloatSkin
| Step_PosS8Morph | Step_PosS16Morph | Step_PosFloatMorph
| Step_PosS8MorphSkin | Step_PosS16MorphSkin | Step_PosFloatMorphSkin
| Step_PosS8Through | Step_PosS16Through | Step_PosFloatThrough.

(** The logical attribute a step decodes. *)
Inductive Attribute : Type :=
| Weights | Texcoord | Color | Normal | Position.

Definition Attribute_eq_dec (a b : Attribute) : {a = b} + {a <> b}.
Proof. decide equality. Defined.

Definition attribute_of (f : StepFunction) : Attribute :=
  match f with
  | Step_WeightsU8Skin | Step_WeightsU16Skin | Step_WeightsFloatSkin => Weights
  | Step_TcU8ToFloat | Step_TcU16ToFloat | Step_TcFloat
  | Step_TcU8Prescale | Step_TcU16Prescale | Step_TcU16DoublePrescale
  | Step_TcFloatPrescale
  | Step_TcU16DoubleToFloat | Step_TcU16ThroughToFloat
  | Step_TcU16ThroughDoubleToFloat | Step_TcFloatThrough
  | Step_TcU8MorphToFloat | Step_TcU16MorphToFloat
  | Step_TcU16DoubleMorphToFloat | Step_TcFloatMorph
  | Step_TcU8PrescaleMorph | Step_TcU16PrescaleMorph
  | Step_TcU16DoublePrescaleMorph | Step_TcFloatPrescaleMorph => Texcoord
  | Step_ColorInvalid | Step_Color4444 | Step_Color565 | Step_Color5551
  | Step_Color8888
  | Step_Color4444Morph | Step_Color565Morph | Step_Color5551Morph
  | Step_Color8888Morph => Color
  | Step_NormalS8 | Step_NormalS8ToFloat | Step_NormalS16 | Step_NormalFloat
  | Step_NormalS8Skin | Step_NormalS16Skin | Step_NormalFloatSkin
  | Step_NormalS8Morph | Step_NormalS16Morph | Step_NormalFloatMorph
  | Step_NormalS8MorphSkin | Step_NormalS16MorphSkin
  | Step_NormalFloatMorphSkin => Normal
  | _ => Position
  end.

Record VertexDecoderOptions : Type := {
  expandAllWeightsToFloat : bool;
  expand8BitNormalsToFloat : bool
}.

(** Modelled from the spec: planning also reads state of the caller that
    is no argument of [SetVertexType]: whether texture coordinates are
    prescaled, and whether 16-bit texture coordinates use the doubled
    range. *)
Record PlanConfig : Type := {
  prescaleUV : bool;
  doubleTextureCoordinates : bool
}.

Module VertexDecoder.

(** The members the planner sets and the two mutable cursors.  The
    compiled function ([jitted_]) and the layout of the packed input
    record are left out. *)
Record t : Type := {
  decoded_ : Z;
  ptr_ : Z;
  steps_ : list StepFunction;
  numSteps_ : Z;
  fmt_ : Z;
  decFmt : DecVtxFormat;
  throughmode : bool;
  tc : Z;
  col : Z;
  nrm : Z;
  pos : Z;
  weighttype : Z;
  idx : Z;
  morphcount : Z;
  nweights : Z
}.

(** [steps_] is an array of five entries. *)
Definition MAX_STEPS : nat := 5.

(** The steps in use: the first [numSteps_] entries of [steps_]. *)
Definition pipeline (d : t) : list StepFunction :=
  firstn (Z.to_nat (numSteps_ d)) (steps_ d).

(** Modelled from the spec: the body of [SetVertexType] and its step
    tables are in another translation unit; what
    follows, up to [SetVertexType], is the planning algorithm of the
    specification over the members and the step functions this header
    declares.

    State of one planning run: the step array, the step count, the
    decoded layout and the running decoded offset. *)
Record Plan : Type := {
  p_steps : list StepFunction;
  p_numSteps : Z;
  p_decFmt : DecVtxFormat;
  p_decOff : Z
}.

(** Modelled from the spec: [steps_[numSteps_++] = f]. *)
Definition push_step (f : StepFunction) (p : Plan) : Plan :=
  {| p_steps := array_set (p_steps p) (Z.to_nat (p_numSteps p)) f;
     p_numSteps := p_numSteps p + 1;
     p_decFmt := p_decFmt p;
     p_decOff := p_decOff p |}.

(** Modelled from the spec: an attribute is placed at the running
    decoded offset, which then advances by the size of its format
    ([set_uv], [set_c0], [set_nrm], [set_pos]). *)
Definition set_uv (fmt : Z) (p : Plan) : Plan :=
  let f := p_decFmt p in
  {| p_steps := p_steps p; p_numSteps := p_numSteps p;
     p_decFmt := {| uvfmt := fmt; uvoff := p_decOff p;
                    c0fmt := c0fmt f; c0off := c0off f;
                    c1fmt := c1fmt f; c1off := c1off f;
                    nrmfmt := nrmfmt f; nrmoff := nrmoff f;
                    posfmt := posfmt f; posoff := posoff f;
                    stride := stride f; id := id f |};
     p_decOff := p_decOff p + DecFmtSize fmt |}.

(** Modelled from the spec: as [set_uv], for the first color. *)
Definition set_c0 (fmt : Z) (p : Plan) : Plan :=
  let f := p_decFmt p in
  {| p_steps := p_steps p; p_numSteps := p_numSteps p;
     p_decFmt := {| uvfmt := uvfmt f; uvoff := uvoff f;
                    c0fmt := fmt; c0off := p_decOff p;
                    c1fmt := c1fmt f; c1off := c1off f;
                    nrmfmt := nrmfmt f; nrmoff := nrmoff f;
                    posfmt := posfmt f; posoff := posoff f;
                    stride := stride f; id := id f |};
     p_decOff := p_decOff p + DecFmtSize fmt |}.

(** Modelled from the spec: as [set_uv], for the normal. *)
Definition set_nrm (fmt : Z) (p : Plan) : Plan :=
  let f := p_decFmt p in
  {| p_steps := p_steps p; p_numSteps := p_numSteps p;
     p_decFmt := {| uvfmt := uvfmt f; uvoff := uvoff f;
                    c0fmt := c0fmt f; c0off := c0off f;
                    c1fmt := c1fmt f; c1off := c1off f;
                    nrmfmt := fmt; nrmoff := p_decOff p;
                    posfmt := posfmt f; posoff := posoff f;
                    stride := stride f; id := id f |};
     p_decOff := p_decOff p + DecFmtSize fmt |}.

(** Modelled from the spec: as [set_uv], for the position. *)
Definition set_pos (fmt : Z) (p : Plan) : Plan :=
  let f := p_decFmt p in
  {| p_steps := p_steps p; p_numSteps := p_numSteps p;
     p_decFmt := {| uvfmt := uvfmt f; uvoff := uvoff f;
                    c0fmt := c0fmt f; c0off := c0off f;
                    c1fmt := c1fmt f; c1off := c1off f;
                    nrmfmt := nrmfmt f; nrmoff := nrmoff f;
                    posfmt := fmt; posoff := p_decOff p;
                    stride := stride f; id := id f |};
     p_decOff := p_decOff p + DecFmtSize fmt |}.

(** Modelled from the spec: planning starts from a layout with every
    attribute absent. *)
Definition cleared : DecVtxFormat :=
  {| uvfmt := 0; uvoff := 0; c0fmt := 0; c0off := 0; c1fmt := 0; c1off := 0;
     nrmfmt := 0; nrmoff := 0; posfmt := 0; posoff := 0; stride := 0;
     id := 0 |}.

(** Modelled from the spec: the weights step, by source encoding
    (1: 8-bit, 2: 16-bit, 3: float). *)
Definition wtstep_skin (w : Z) : StepFunction :=
  if w =? 1 then Step_WeightsU8Skin
  else if w =? 2 then Step_WeightsU16Skin
  else Step_WeightsFloatSkin.

(** Modelled from the spec: texture coordinate steps, by source
    encoding (1: 8-bit, 2: 16-bit, 3: float); [dbl] selects the
    doubled-range 16-bit variants.  [tcstep] is the plain conversion,
    [tcstep_through], [tcstep_morph], [tcstep_prescale] and
    [tcstep_prescale_morph] its variants. *)
Definition tcstep (dbl : bool) (tc : Z) : StepFunction :=
  if tc =? 1 then Step_TcU8ToFloat
  else if tc =? 2 then
    (if dbl then Step_TcU16DoubleToFloat else Step_TcU16ToFloat)
  else Step_TcFloat.

(** Modelled from the spec: see [tcstep]. *)
Definition tcstep_through (dbl : bool) (tc : Z) : StepFunction :=
  if tc =? 1 then Step_TcU8ToFloat
  else if tc =? 2 then
    (if dbl then Step_TcU16ThroughDoubleToFloat else Step_TcU16ThroughToFloat)
  else Step_TcFloatThrough.

(** Modelled from the spec: see [tcstep]. *)
Definition tcstep_morph (dbl : bool) (tc : Z) : StepFunction :=
  if tc =? 1 then Step_TcU8MorphToFloat
  else if tc =? 2 then
    (if dbl then Step_TcU16DoubleMorphToFloat else Step_TcU16MorphToFloat)
  else Step_TcFloatMorph.

(** Modelled from the spec: see [tcstep]. *)
Definition tcstep_prescale (dbl : bool) (tc : Z) : StepFunction :=
  if tc =? 1 then Step_TcU8Prescale
  else if tc =? 2 then
    (if dbl then Step_TcU16DoublePrescale else Step_TcU16Prescale)
  else Step_TcFloatPrescale.

(** Modelled from the spec: see [tcstep]. *)
Definition tcstep_prescale_morph (dbl : bool) (tc : Z) : StepFunction :=
  if tc =? 1 then Step_TcU8PrescaleMorph
  else if tc =? 2 then
    (if dbl then Step_TcU16DoublePrescaleMorph else Step_TcU16PrescaleMorph)
  else Step_TcFloatPrescaleMorph.

(** Modelled from the spec: color steps, by source encoding (4: 5-6-5,
    5: 5-5-5-1, 6: 4-4-4-4, 7: 8-8-8-8); the encodings 1..3 are not
    supported and get the zero-fill step. *)
Definition colstep (col : Z) : StepFunction :=
  if col =? 4 then Step_Color565
  else if col =? 5 then Step_Color5551
  else if col =? 6 then Step_Color4444
  else if col =? 7 then Step_Color8888
  else Step_ColorInvalid.

(** Modelled from the spec: see [colstep]. *)
Definition colstep_morph (col : Z) : StepFunction :=
  if col =? 4 then Step_Color565Morph
  else if col =? 5 then Step_Color5551Morph
  else if col =? 6 then Step_Color4444Morph
  else if col =? 7 then Step_Color8888Morph
  else Step_ColorInvalid.

(** Modelled from the spec: normal and position steps, by source
    encoding (1: signed 8-bit, 2: signed 16-bit, 3: float), plain,
    skinned, morphed, morphed and skinned, and through. *)
Definition by_width (s8 s16 f : StepFunction) (w : Z) : StepFunction :=
  if w =? 1 then s8 else if w =? 2 then s16 else f.

(** Modelled from the spec: the plain normal steps. *)
Definition nrmstep :=
  by_width Step_NormalS8 Step_NormalS16 Step_NormalFloat.

(** Modelled from the spec: the skinned normal steps. *)
Definition nrmstep_skin :=
  by_width Step_NormalS8Skin Step_NormalS16Skin Step_NormalFloatSkin.

(** Modelled from the spec: the morphed normal steps. *)
Definition nrmstep_morph :=
  by_width Step_NormalS8Morph Step_NormalS16Morph Step_NormalFloatMorph.

(** Modelled from the spec: the morphed and skinned normal steps. *)
Definition nrmstep_morphskin :=
  by_width Step_NormalS8MorphSkin Step_NormalS16MorphSkin
           Step_NormalFloatMorphSkin.

(** Modelled from the spec: the plain position steps. *)
Definition posstep :=
  by_width Step_PosS8 Step_PosS16 Step_PosFloat.

(** Modelled from the spec: the skinned position steps. *)
Definition posstep_skin :=
  by_width Step_PosS8Skin Step_PosS16Skin Step_PosFloatSkin.

(** Modelled from the spec: the morphed position steps. *)
Definition posstep_morph :=
  by_width Step_PosS8Morph Step_PosS16Morph Step_PosFloatMorph.

(** Modelled from the spec: the morphed and skinned position steps. *)
Definition posstep_morph_skin :=
  by_width Step_PosS8MorphSkin Step_PosS16MorphSkin Step_PosFloatMorphSkin.

(** Modelled from the spec: the through-mode position steps. *)
Definition posstep_through :=
  by_width Step_PosS8Through Step_PosS16Through Step_PosFloatThrough.

(** Modelled from the spec: slot 1, weights: a weights step when weights
    are present.  The step accumulates the skin matrix and has no decoded
    output. *)
Definition plan_weights (weighttype : Z) (p : Plan) : Plan :=
  if weighttype =? 0 then p else push_step (wtstep_skin weighttype) p.

(** Modelled from the spec: slot 2, texture coordinates: prescale,
    through, morphed or plain conversion; the decoded format is two
    floats. *)
Definition plan_texcoord (cfg : PlanConfig) (tc morphcount : Z)
           (through : bool) (p : Plan) : Plan :=
  if tc =? 0 then p
  else
    let dbl := doubleTextureCoordinates cfg in
    let step :=
      if prescaleUV cfg && negb through then
        (if morphcount =? 1 then tcstep_prescale dbl tc
         else tcstep_prescale_morph dbl tc)
      else if through then tcstep_through dbl tc
      else if morphcount =? 1 then tcstep dbl tc
      else tcstep_morph dbl tc in
    set_uv DEC_FLOAT_2 (push_step step p).

(** Modelled from the spec: slot 3, color: one step, plain or morphed;
    it decodes to four 8-bit components. *)
Definition plan_color (col morphcount : Z) (p : Plan) : Plan :=
  if col =? 0 then p
  else
    set_c0 DEC_U8_4
      (push_step (if morphcount =? 1 then colstep col else colstep_morph col)
                 p).

(** Modelled from the spec: slot 4, normal: skinned and morphed normals
    decode to three floats; a plain normal keeps its width unless 8-bit
    normals are expanded. *)
Definition plan_normal (options : VertexDecoderOptions)
           (nrm weighttype morphcount : Z) (p : Plan) : Plan :=
  if nrm =? 0 then p
  else if negb (weighttype =? 0) then
    set_nrm DEC_FLOAT_3
      (push_step (if morphcount =? 1 then nrmstep_skin nrm
                  else nrmstep_morphskin nrm) p)
  else if negb (morphcount =? 1) then
    set_nrm DEC_FLOAT_3 (push_step (nrmstep_morph nrm) p)
  else if nrm =? 1 then
    (if expand8BitNormalsToFloat options
     then set_nrm DEC_FLOAT_3 (push_step Step_NormalS8ToFloat p)
     else set_nrm DEC_S8_3 (push_step Step_NormalS8 p))
  else if nrm =? 2 then set_nrm DEC_S16_3 (push_step Step_NormalS16 p)
  else set_nrm DEC_FLOAT_3 (push_step Step_NormalFloat p).

(** Modelled from the spec: slot 5, position: there is always a position
    (an absent encoding is read as signed 8-bit); it decodes to three
    floats. *)
Definition plan_position (pos weighttype morphcount : Z) (through : bool)
           (p : Plan) : Plan :=
  let pos := if pos =? 0 then 1 else pos in
  let step :=
    if through then posstep_through pos
    else if negb (weighttype =? 0) then
      (if morphcount =? 1 then posstep_skin pos else posstep_morph_skin pos)
    else
      (if morphcount =? 1 then posstep pos else posstep_morph pos) in
  set_pos DEC_FLOAT_3 (push_step step p).

(** Modelled from the spec: [DecVtxFormat::ComputeID] is declared in
    this header only.  The identifier packs the format tags, which keep
    to 4 bits each; offsets and stride are determined by the tags. *)
Definition ComputeID (f : DecVtxFormat) : Z :=
  Z.lor (uvfmt f)
    (Z.lor (Z.shiftl (c0fmt f) 4)
       (Z.lor (Z.shiftl (c1fmt f) 8)
          (Z.lor (Z.shiftl (nrmfmt f) 12) (Z.shiftl (posfmt f) 16)))).

(** Modelled from the spec: the layout once all slots are placed; the
    stride is the decoded size at 4-byte granularity. *)
Definition finish_layout (p : Plan) : DecVtxFormat :=
  let f := p_decFmt p in
  {| uvfmt := uvfmt f; uvoff := uvoff f;
     c0fmt := c0fmt f; c0off := c0off f;
     c1fmt := c1fmt f; c1off := c1off f;
     nrmfmt := nrmfmt f; nrmoff := nrmoff f;
     posfmt := posfmt f; posoff := posoff f;
     stride := RoundUp4 (p_decOff p);
     id := ComputeID f |}.

(** Modelled from the spec: the fields of the packed descriptor, and
    the five slots in attribute order. *)
Definition plan (d : t) (fmt : Z) (options : VertexDecoderOptions)
           (cfg : PlanConfig) : Plan :=
  let through := negb (Z.land fmt GE_VTYPE_THROUGH =? 0) in
  let tc := Z.land fmt 3 in
  let col := Z.land (Z.shiftr fmt 2) 7 in
  let nrm := Z.land (Z.shiftr fmt 5) 3 in
  let pos := Z.land (Z.shiftr fmt 7) 3 in
  let weighttype := Z.land (Z.shiftr fmt 9) 3 in
  let morphcount := Z.land (Z.shiftr fmt 18) 7 + 1 in
  let p0 := {| p_steps := steps_ d; p_numSteps := 0;
               p_decFmt := cleared; p_decOff := 0 |} in
  let p1 := plan_weights weighttype p0 in
  let p2 := plan_texcoord cfg tc morphcount through p1 in
  let p3 := plan_color col morphcount p2 in
  let p4 := plan_normal options nrm weighttype morphcount p3 in
  plan_position pos weighttype morphcount through p4.

(** Modelled from the spec: [SetVertexType] stores the plan and the
    fields of the descriptor in the decoder. *)
Definition SetVertexType (d : t) (fmt : Z) (options : VertexDecoderOptions)
           (cfg : PlanConfig) : t :=
  let p := plan d fmt options cfg in
  {| decoded_ := decoded_ d;
     ptr_ := ptr_ d;
     steps_ := p_steps p;
     numSteps_ := p_numSteps p;
     fmt_ := fmt;
     decFmt := finish_layout p;
     throughmode := negb (Z.land fmt GE_VTYPE_THROUGH =? 0);
     tc := Z.land fmt 3;
     col := Z.land (Z.shiftr fmt 2) 7;
     nrm := Z.land (Z.shiftr fmt 5) 3;
     pos := (let pos := Z.land (Z.shiftr fmt 7) 3 in
             if pos =? 0 then 1 else pos);
     weighttype := Z.land (Z.shiftr fmt 9) 3;
     idx := Z.land (Z.shiftr fmt 11) 3;
     morphcount := Z.land (Z.shiftr fmt 18) 7 + 1;
     nweights := Z.land (Z.shiftr fmt 14) 7 + 1 |}.

(** Every other member function is [const]: it can assign the two
    [mutable] cursors and nothing else. *)
Definition const_call (d : t) (decoded ptr : Z) : t :=
  {| decoded_ := decoded; ptr_ := ptr;
     steps_ := steps_ d; numSteps_ := numSteps_ d; fmt_ := fmt_ d;
     decFmt := decFmt d; throughmode := throughmode d;
     tc := tc d; col := col d; nrm := nrm d; pos := pos d;
     weighttype := weighttype d; idx := idx d;
     morphcount := morphcount d; nweights := nweights d |}.

Inductive Operation : Type :=
| OpSetVertexType (vtype : Z) (options : VertexDecoderOptions)
                  (cfg : PlanConfig)
| OpConst (decoded ptr : Z).

Definition apply (d : t) (op : Operation) : t :=
  match op with
  | OpSetVertexType vtype options cfg => SetVertexType d vtype options cfg
  | OpConst decoded ptr => const_call d decoded ptr
  end.

Definition run (d : t) (ops : list Operation) : t := fold_left apply ops d.

(** The step array has its five entries, the step count stays within
    it, and the steps in use decode distinct logical attributes. *)
Definition steps_ok (d : t) : Prop :=
  List.length (steps_ d) = MAX_STEPS /\
  0 <= numSteps_ d <= 5 /\
  NoDup (map attribute_of (pipeline d)).

(** A planning run that has filled the first entries of the step array
    with steps for the attributes [attrs], in this order. *)
Definition planned (attrs : list Attribute) (p : Plan) : Prop :=
  List.length (p_steps p) = MAX_STEPS /\
  p_numSteps p = Z.of_nat (List.length attrs) /\
  map attribute_of (firstn (List.length attrs) (p_steps p)) = attrs.

(** A slot adds no step, or one step of its own attribute. *)
Definition slot_of (a : Attribute) (l : list Attribute) : Prop :=
  l = [] \/ l = [a].

(** The attributes of a layout that are present, as byte ranges
    [(offset, size)]. *)
Definition ranges (f : DecVtxFormat) : list (Z * Z) :=
  map (fun fo => (snd fo, DecFmtSize (fst fo)))
      (filter (fun fo => negb (fst fo =? DEC_NONE))
              [(uvfmt f, uvoff f); (c0fmt f, c0off f); (c1fmt f, c1off f);
               (nrmfmt f, nrmoff f); (posfmt f, posoff f)]).

Definition disjoint (r1 r2 : Z * Z) : Prop :=
  fst r1 + snd r1 <= fst r2 \/ fst r2 + snd r2 <= fst r1.

Fixpoint pairwise {A : Type} (R : A -> A -> Prop) (l : list A) : Prop :=
  match l with
  | [] => True
  | x :: t => Forall (R x) t /\ pairwise R t
  end.

End VertexDecoder.

(** ** Sequences of reader calls *)

(** What a caller does with a reader: one of the read operations, or
    [Goto] to move to another vertex. *)
Inductive Call : Type :=
| CallReadPos
| CallReadPosThroughZ16
| CallReadNrm
| CallReadUV
| CallReadColor0
| CallReadColor1
| CallGoto (index : Z).

(** One call: the reader afterwards and the floats written ([Goto]
    writes none). *)
Definition call (m : Memory) (c : Call) (r : VertexReader.t)
  : Eff (VertexReader.t * list float) :=
  match c with
  | CallReadPos => out <- VertexReader.ReadPos m r ;; ret (r, out)
  | CallReadPosThroughZ16 =>
      out <- VertexReader.ReadPosThroughZ16 m r ;; ret (r, out)
  | CallReadNrm => out <- VertexReader.ReadNrm m r ;; ret (r, out)
  | CallReadUV => out <- VertexReader.ReadUV m r ;; ret (r, out)
  | CallReadColor0 => out <- VertexReader.ReadColor0 m r ;; ret (r, out)
  | CallReadColor1 => out <- VertexReader.ReadColor1 m r ;; ret (r, out)
  | CallGoto index => ret (VertexReader.Goto r index, [])
  end.

(** Calls in sequence, with the outputs in call order. *)
Fixpoint calls (m : Memory) (cs : list Call) (r : VertexReader.t)
  : Eff (list (list float)) :=
  match cs with
  | [] => ret []
  | c :: cs' =>
      ro <- call m c r ;;
      outs <- calls m cs' (fst ro) ;;
      ret (snd ro :: outs)
  end.

(** The format tag a read operation switches on, and whether the switch
    has a case for it. *)
Definition supported (c : Call) (f : DecVtxFormat) : bool :=
  match c with
  | CallReadPos | CallReadPosThroughZ16 =>
      (posfmt f =? DEC_FLOAT_3) || (posfmt f =? DEC_S16_3)
      || (posfmt f =? DEC_S8_3)
  | CallReadNrm =>
      (nrmfmt f =? DEC_FLOAT_3) || (nrmfmt f =? DEC_S16_3)
      || (nrmfmt f =? DEC_S8_3)
  | CallReadUV =>
      (uvfmt f =? DEC_U8_2) || (uvfmt f =? DEC_U16_2)
      || (uvfmt f =? DEC_FLOAT_2)
  | CallReadColor0 => (c0fmt f =? DEC_U8_4) || (c0fmt f =? DEC_FLOAT_4)
  | CallReadColor1 => (c1fmt f =? DEC_U8_4) || (c1fmt f =? DEC_FLOAT_4)
  | CallGoto _ => true
  end.

(** The number of floats a read operation writes. *)
Definition components (c : Call) : nat :=
  match c with
  | CallReadPos | CallReadPosThroughZ16 | CallReadNrm | CallReadColor1 => 3
  | CallReadUV => 2
  | CallReadColor0 => 4
  | CallGoto _ => 0
  end.

(** ** Exhaustive checks over a range of integers *)

(** [p] holds of the [n] integers from [z] on. *)
Fixpoint all_from (z : Z) (n : nat) (p : Z -> bool) : bool :=
  match n with
  | O => true
  | S n' => p z && all_from (z + 1) n' p
  end.

(** The facts about the two through-mode Z readings of an unsigned 16-bit
    value [z]: the normalized one lies in [0, 1], the raw one in
    [0, 65535], and they differ unless [z] is 0. *)
Definition through_z16_ok (z : Z) : bool :=
  let raw := F32.of_int z in
  let nz := F32.mul raw (F32.div (F32.of_int 1) (F32.of_int 65535)) in
  F32.leb F32.zero nz && F32.leb nz (F32.of_int 1)
  && F32.leb F32.zero raw && F32.leb raw (F32.of_int 65535)
  && ((z =? 0) || negb (F32.eqb nz raw)).

(** The float expression [v * (1.0f / d)] for an integer component [v]
    and an integral divisor [d]. *)
Definition scaled (d : Z) (v : Z) : float :=
  F32.mul (F32.of_int v) (F32.div (F32.of_int 1) (F32.of_int d)).

(** A component scaled by [1 / d] stays below 1. *)
Definition scaled_below_one (d : Z) (v : Z) : bool :=
  F32.ltb (scaled d v) (F32.of_int 1).

(** ** Report discipline *)

(** A computation that raises no diagnostic and does not look at the
    report state. *)
Definition silent {A : Type} (c : Eff A) : Prop :=
  exists o : option A,
    forall st, c st = match o with
                      | Some a => Some (a, st)
                      | None => None
                      end.

(** A computation whose returned value does not depend on the report
    state. *)
Definition steady {A : Type} (c : Eff A) : Prop :=
  exists o : option A, forall st, result (c st) = o.

(** Every diagnostic raised so far belongs to a report that is spent,
    and no report has raised two. *)
Definition reports_once (st : Reporting) : Prop :=
  NoDup (map d_name (diagnostics st)) /\
  forall d, In d (diagnostics st) -> In (d_name d) (reported st).

(** [c] keeps the report discipline. *)
Definition preserves {A : Type} (c : Eff A) : Prop :=
  forall st a st', c st = Some (a, st') -> reports_once st -> reports_once st'.

(** The number of diagnostics the report named [n] has raised about the
    format value [arg]. *)
Definition raised (n : string) (arg : Z) (st : Reporting) : nat :=
  List.length
    (filter (fun d => String.eqb (d_name d) n && (d_arg d =? arg))
            (diagnostics st)).

(** ** Sample inputs *)

(** A decoded layout with the given position, normal and second color
    formats. *)
Definition layout_example (pos nrm c1 : Z) : DecVtxFormat :=
  {| uvfmt := 0; uvoff := 0; c0fmt := 0; c0off := 0;
     c1fmt := c1; c1off := 8; nrmfmt := nrm; nrmoff := 0;
     posfmt := pos; posoff := 0; stride := 12; id := 0 |}.

(** Index buffer [5, 2, 9, 2] of 16-bit indices after two other bytes. *)
Definition index_memory : Memory :=
  [xaa; xbb; x05; x00; x02; x00; x09; x00; x02; x00].

(** X = 5, Y = -5 and the bits of -100 in Z, as a signed 16-bit triplet. *)
Definition s16_position_memory : Memory :=
  [x05; x00; xfb; xff; x9c; xff; x00; x00; x00; x00; x00; x00].

(** X = 1.0, Y = 1.0 and Z = -100.0, as a float triplet. *)
Definition float_position_memory : Memory :=
  [x00; x00; x80; x3f; x00; x00; x80; x3f; x00; x00; xc8; xc2].

(** A decoder before its first [SetVertexType]. *)
Definition fresh_decoder : VertexDecoder.t :=
  {| VertexDecoder.decoded_ := 0; VertexDecoder.ptr_ := 0;
     VertexDecoder.steps_ := repeat Step_PosFloat 5;
     VertexDecoder.numSteps_ := 0; VertexDecoder.fmt_ := 0;
     VertexDecoder.decFmt := VertexDecoder.cleared;
     VertexDecoder.throughmode := false;
     VertexDecoder.tc := 0; VertexDecoder.col := 0; VertexDecoder.nrm := 0;
     VertexDecoder.pos := 0; VertexDecoder.weighttype := 0;
     VertexDecoder.idx := 0; VertexDecoder.morphcount := 1;
     VertexDecoder.nweights := 1 |}.

(** Float weights, texture coordinate, 8-8-8-8 color, normal and
    position: all five slots in use. *)
Definition full_vtype : Z := 3 + 7 * 4 + 3 * 32 + 3 * 128 + 3 * 512.

Definition plain_options : VertexDecoderOptions :=
  {| expandAllWeightsToFloat := false; expand8BitNormalsToFloat := false |}.

Definition plain_config : PlanConfig :=
  {| prescaleUV := false; doubleTextureCoordinates := false |}.

(** X = 1.0, Y = 1.0 and Z = 70000.0, as a float triplet. *)
Definition float_position_memory_70000 : Memory :=
  [x00; x00; x80; x3f; x00; x00; x80; x3f; x00; xb8; x88; x47].

(** A second color of three floats 1.0, 1.0, -100.0 at offset 8, at the
    very end of the memory. *)
Definition color1_float_memory : Memory :=
  repeat x00 8 ++ float_position_memory.

(** A second color of three bytes at the very end of the memory: no
    alpha is stored after it. *)
Definition color1_memory : Memory :=
  [x00; x00; x00; x00; x00; x00; x00; x00; xff; x80; x00].

(** Normal and position both read the bytes 127, -128, 1. *)
Definition s8_memory : Memory := [x7f; x80; x01; x00].

(** ** The bytes a read touches *)

(** The read operation of a call, without the reader ([Goto] reads
    nothing). *)
Definition read (m : Memory) (c : Call) (r : VertexReader.t)
  : Eff (list float) :=
  match c with
  | CallReadPos => VertexReader.ReadPos m r
  | CallReadPosThroughZ16 => VertexReader.ReadPosThroughZ16 m r
  | CallReadNrm => VertexReader.ReadNrm m r
  | CallReadUV => VertexReader.ReadUV m r
  | CallReadColor0 => VertexReader.ReadColor0 m r
  | CallReadColor1 => VertexReader.ReadColor1 m r
  | CallGoto _ => ret []
  end.

(** The offset, inside a decoded vertex, of the attribute a call reads. *)
Definition attribute_offset (c : Call) (f : DecVtxFormat) : Z :=
  match c with
  | CallReadPos | CallReadPosThroughZ16 => posoff f
  | CallReadNrm => nrmoff f
  | CallReadUV => uvoff f
  | CallReadColor0 => c0off f
  | CallReadColor1 => c1off f
  | CallGoto _ => 0
  end.

(** The number of bytes a call loads from that offset on: the elements
    its case of the switch indexes, or the length of its [memcpy]. *)
Definition footprint (c : Call) (f : DecVtxFormat) : nat :=
  match c with
  | CallReadPos | CallReadPosThroughZ16 =>
      if posfmt f =? DEC_FLOAT_3 then 12
      else if posfmt f =? DEC_S16_3 then 6
      else if posfmt f =? DEC_S8_3 then 3 else 0
  | CallReadNrm =>
      if nrmfmt f =? DEC_FLOAT_3 then 12
      else if nrmfmt f =? DEC_S16_3 then 6
      else if nrmfmt f =? DEC_S8_3 then 3 else 0
  | CallReadUV =>
      if uvfmt f =? DEC_U8_2 then 2
      else if uvfmt f =? DEC_U16_2 then 4
      else if uvfmt f =? DEC_FLOAT_2 then 8 else 0
  | CallReadColor0 =>
      if c0fmt f =? DEC_U8_4 then 4
      else if c0fmt f =? DEC_FLOAT_4 then 16 else 0
  | CallReadColor1 =>
      if c1fmt f =? DEC_U8_4 then 3
      else if c1fmt f =? DEC_FLOAT_4 then 12 else 0
  | CallGoto _ => 0
  end.

(** A buffer of decoded vertices: the records [recs], each [size] bytes
    long, lie one after the other from address [base] on. *)
Definition vertices_at (m : Memory) (base : Z) (size : nat)
           (recs : list (list byte)) : Prop :=
  Forall (fun rec => List.length rec = size) recs /\
  exists pre post,
    m = pre ++ List.concat recs ++ post /\ base = Z.of_nat (List.length pre).

(** ** More exhaustive checks *)

(** The constant [1.0f / d]. *)
Definition recip (d : Z) : float := F32.div (F32.of_int 1) (F32.of_int d).

(** The float expression [v * c] for an integer component [v]. *)
Definition scaled_by (c : float) (v : Z) : float := F32.mul (F32.of_int v) c.

(** An unsigned 16-bit value [z] as through-mode Z passed in a float,
    [c] being [1 / 65535]: neither clamp of the two readers changes
    it. *)
Definition clamp_inert (c : float) (z : Z) : bool :=
  let raw := F32.of_int z in
  let nz := scaled_by c z in
  negb (F32.gtb nz (F32.of_int 1)) && negb (F32.ltb nz F32.zero)
  && negb (F32.gtb raw (F32.of_int 65535)) && negb (F32.ltb raw F32.zero).

(** The value of [v] is strictly below that of [v + 1], unless [v] is
    the last input. *)
Definition increasing (c : float) (last v : Z) : bool :=
  (v =? last) || F32.ltb (scaled_by c v) (scaled_by c (v + 1)).

(** A texture coordinate component [v] scaled by [c = 1 / d] lies in
    [0, 2) and is 1.0 exactly at [v = d]. *)
Definition uv_ok (c : float) (d v : Z) : bool :=
  let t := scaled_by c v in
  F32.leb F32.zero t && F32.ltb t (F32.of_int 2)
  && Bool.eqb (F32.eqb t (F32.of_int 1)) (v =? d).

(** A signed position component scaled by [c = 1 / d], [d] being 128 or
    32768: at least -1.0, and -1.0 exactly at [v = - d]. *)
Definition pos_ok (c : float) (d v : Z) : bool :=
  let t := scaled_by c v in
  F32.leb (F32.of_int (-1)) t
  && Bool.eqb (F32.eqb t (F32.of_int (-1))) (v =? - d).

(** A signed normal component scaled by [c = 1 / d], [d] being 127 or
    32767: at most 1.0, 1.0 exactly at [v = d], and below -1.0 exactly
    at [v = - d - 1]. *)
Definition nrm_ok (c : float) (d v : Z) : bool :=
  let t := scaled_by c v in
  F32.leb t (F32.of_int 1)
  && Bool.eqb (F32.eqb t (F32.of_int 1)) (v =? d)
  && Bool.eqb (F32.ltb t (F32.of_int (-1))) (v =? - d - 1).

(** An 8-bit color component [b], [c] being [1 / 255]: its float value
    lies in [0, 1], is 1.0 exactly at 255, and scaled by 255 and
    truncated it is [b] again. *)
Definition color_ok (c : float) (b : Z) : bool :=
  let t := scaled_by c b in
  F32.leb F32.zero t && F32.leb t (F32.of_int 1)
  && Bool.eqb (F32.eqb t (F32.of_int 1)) (b =? 255)
  && match F32.to_u8 (F32.mul t (F32.of_int 255)) with
     | Some v => v =? b
     | None => false
     end.

(** An 8-bit through-mode Z [b], [c] being [1 / 255]: normalized it lies
    in [0, 1], raw in [0, 255]. *)
Definition through_z8_ok (c : float) (b : Z) : bool :=
  let t := scaled_by c b in
  F32.leb F32.zero t && F32.leb t (F32.of_int 1)
  && F32.leb F32.zero (F32.of_int b)
  && F32.leb (F32.of_int b) (F32.of_int 255).

(** The second color of [color1_memory] two bytes further on, among
    other bytes. *)
Definition color1_shifted_memory : Memory :=
  [x00; x00; x11; x22; x33; x44; x55; x66; x77; x88; xff; x80; x00; x99].

(** Two decoded vertices of 12 bytes after two other bytes: one of bytes
    0x11, then [s16_position_memory]; one more byte follows. *)
Definition two_vertices : Memory :=
  [xaa; xbb] ++ repeat x11 12 ++ s16_position_memory ++ [xcc].

(** X = 1.0, Y = 1.0 and Z = 3.75, as a float triplet. *)
Definition float_fraction_memory : Memory :=
  [x00; x00; x80; x3f; x00; x00; x80; x3f; x00; x00; x70; x40].

(** A decoded layout with only a texture coordinate, at offset 0. *)
Definition uv_layout (fmt : Z) : DecVtxFormat :=
  {| uvfmt := fmt; uvoff := 0; c0fmt := 0; c0off := 0;
     c1fmt := 0; c1off := 0; nrmfmt := 0; nrmoff := 0;
     posfmt := 0; posoff := 0; stride := 4; id := 0 |}.

(** The bytes 128, 255, 0, 128: as an 8-bit pair 128 and 255, as a
    16-bit pair 65408 and 32768. *)
Definition uv_memory : Memory := [x80; xff; x00; x80].

(** A decoded layout with only a first color, at offset 0. *)
Definition c0_layout (fmt : Z) : DecVtxFormat :=
  {| uvfmt := 0; uvoff := 0; c0fmt := fmt; c0off := 0;
     c1fmt := 0; c1off := 0; nrmfmt := 0; nrmoff := 0;
     posfmt := 0; posoff := 0; stride := 4; id := 0 |}.

(** The color 255, 128, 0, 64. *)
Definition color0_memory : Memory := [xff; x80; x00; x40].

(** The color of [color0_memory] as four floats: 255/255, 128/255, 0 and
    64/255 as [ReadColor0] computes them. *)
Definition color0_float_memory : Memory :=
  [x00; x00; x80; x3f; x81; x80; x00; x3f;
   x00; x00; x00; x00; x81; x80; x80; x3e].

(** * Properties *)

(** ** Evaluation on sample inputs *)

Example RoundUp4_values :
  map RoundUp4 [0; 1; 4; 13; 36] = [0; 4; 4; 16; 36].
Proof. reflexivity. Qed.

Example of_bits_one : F32.of_bits 1065353216 = F32.of_int 1.
Proof. reflexivity. Qed.

Example to_int_truncates :
  F32.to_int (F32.div (F32.of_int (-7)) (F32.of_int 2)) = Some (-3).
Proof. reflexivity. Qed.

Example convert_16bit_indices :
  map (IndexConverter.convert index_memory
         (IndexConverter.make GE_VTYPE_IDX_16BIT 2)) [0; 1; 2; 3; 4]
  = [Some 5; Some 2; Some 9; Some 2; None].
Proof. reflexivity. Qed.

Example full_pipeline :
  VertexDecoder.pipeline
    (VertexDecoder.SetVertexType fresh_decoder full_vtype plain_options
                                 plain_config)
  = [Step_WeightsFloatSkin; Step_TcFloat; Step_Color8888;
     Step_NormalFloatSkin; Step_PosFloatSkin].
Proof. reflexivity. Qed.

Example full_layout :
  VertexDecoder.ranges
    (VertexDecoder.decFmt
       (VertexDecoder.SetVertexType fresh_decoder full_vtype plain_options
                                    plain_config))
  = [(0, 8); (8, 4); (12, 12); (24, 12)].
Proof. reflexivity. Qed.

(** Two reads of an unsupported normal format raise one diagnostic. *)
Example second_report_is_silent :
  let r := VertexReader.make 0 (layout_example DEC_S16_3 15 0) 0 in
  option_map (fun os => diagnostics (snd os))
    (calls s16_position_memory [CallReadNrm; CallReadPos; CallReadNrm] r
           no_reports)
  = Some [{| d_name := "fmtnrm";
             d_message := "Reader: Unsupported Nrm Format %d";
             d_arg := 15 |}].
Proof. reflexivity. Qed.

(** ** Machine integers and [RoundUp4] *)

Lemma signed_small (w z : Z) :
  0 < w -> - 2 ^ (w - 1) <= z < 2 ^ (w - 1) -> signed w z = z.
Proof.
  intros Hw Hz. unfold signed.
  assert (Hp : 2 ^ w = 2 * 2 ^ (w - 1)).
  { replace w with (Z.succ (w - 1)) at 1 by lia. apply Z.pow_succ_r. lia. }
  assert (Hpos : 0 < 2 ^ (w - 1)) by (apply Z.pow_pos_nonneg; lia).
  destruct (Z_lt_le_dec z 0) as [Hn | Hn].
  - assert (Hm : z mod 2 ^ w = z + 2 ^ w).
    { symmetry. apply Z.mod_unique with (q := -1); lia. }
    rewrite Hm. destruct (Z.ltb_spec (z + 2 ^ w) (2 ^ (w - 1))); lia.
  - rewrite Z.mod_small by lia.
    destruct (Z.ltb_spec z (2 ^ (w - 1))); lia.
Qed.

Lemma int_wrap_small (z : Z) :
  - 2147483648 <= z <= INT_MAX -> int_wrap z = z.
Proof.
  intros Hz. unfold int_wrap. apply signed_small; [lia |].
  change (2 ^ (32 - 1)) with 2147483648. unfold INT_MAX in Hz. lia.
Qed.

Lemma land_lnot_3 (z : Z) : Z.land z (Z.lnot 3) = 4 * (z / 4).
Proof.
  change 3 with (Z.ones 2).
  rewrite <- Z.ldiff_land, Z.ldiff_ones_r by lia.
  rewrite Z.shiftl_mul_pow2, Z.shiftr_div_pow2 by lia.
  change (2 ^ 2) with 4. lia.
Qed.

Lemma RoundUp4_eq (x : Z) :
  0 <= x <= INT_MAX - 3 -> RoundUp4 x = 4 * ((x + 3) / 4).
Proof.
  intros Hx. unfold RoundUp4.
  rewrite int_wrap_small by (unfold INT_MAX in *; lia).
  apply land_lnot_3.
Qed.

Lemma RoundUp4_least (x : Z) :
  0 <= x <= INT_MAX - 3 ->
  RoundUp4 x mod 4 = 0 /\
  x <= RoundUp4 x /\
  (forall y, y mod 4 = 0 -> x <= y -> RoundUp4 x <= y).
Proof.
  intros Hx. rewrite (RoundUp4_eq x Hx).
  pose proof (Z.div_mod (x + 3) 4 ltac:(lia)) as Hd.
  pose proof (Z.mod_pos_bound (x + 3) 4 ltac:(lia)) as Hb.
  repeat split.
  - rewrite Z.mul_comm. apply Z.mod_mul. lia.
  - lia.
  - intros y Hy Hxy.
    pose proof (Z.div_mod y 4 ltac:(lia)) as Hyd. rewrite Hy in Hyd.
    assert ((x + 3) / 4 <= y / 4); [| lia].
    apply Z.div_le_lower_bound; lia.
Qed.

(** ** Memory *)

Lemma byte_val_range (b : byte) : 0 <= byte_val b < 256.
Proof.
  unfold byte_val. pose proof (Byte.to_N_bounded b) as H.
  split; [apply N2Z.is_nonneg | lia].
Qed.

Lemma byte_val_byte_of (z : Z) : byte_val (byte_of z) = z mod 256.
Proof.
  unfold byte_val, byte_of.
  pose proof (Z.mod_pos_bound z 256 ltac:(lia)) as Hb.
  destruct (Byte.of_N (Z.to_N (z mod 256))) as [b |] eqn:E.
  - apply Byte.to_of_N in E. rewrite E. apply Z2N.id. lia.
  - apply Byte.of_N_None_iff in E. lia.
Qed.

Lemma length_le_bytes (n : nat) (v : Z) : List.length (le_bytes n v) = n.
Proof. revert v. induction n; intros; simpl; auto. Qed.

Lemma le_value_le_bytes (n : nat) (v : Z) :
  0 <= v < 256 ^ Z.of_nat n -> le_value (le_bytes n v) = v.
Proof.
  revert v. induction n as [| n IH]; intros v Hv.
  - simpl in *. lia.
  - cbn [le_bytes le_value]. rewrite byte_val_byte_of.
    rewrite Nat2Z.inj_succ, Z.pow_succ_r in Hv by lia.
    rewrite IH.
    + pose proof (Z.div_mod v 256 ltac:(lia)). lia.
    + split; [apply Z.div_pos; lia | apply Z.div_lt_upper_bound; lia].
Qed.

Lemma load_bytes_app (pre l post : list byte) :
  load_bytes (pre ++ l ++ post) (Z.of_nat (List.length pre)) (List.length l)
  = Some l.
Proof.
  unfold load_bytes. rewrite !length_app.
  destruct (Z.leb_spec 0 (Z.of_nat (List.length pre))); [| lia].
  destruct (Z.leb_spec
              (Z.of_nat (List.length pre) + Z.of_nat (List.length l))
              (Z.of_nat (List.length pre
                         + (List.length l + List.length post)))); [| lia].
  cbn [andb]. rewrite Nat2Z.id.
  rewrite skipn_app, skipn_all, Nat.sub_diag. cbn [skipn app].
  rewrite firstn_app, firstn_all, Nat.sub_diag. cbn [firstn].
  now rewrite app_nil_r.
Qed.

(** The [i]-th element of an array in memory is the [w] bytes at
    [a + w * i]. *)
Lemma array_at_load (m : Memory) (a : Z) (w : nat) (elts : list Z) (i : nat) :
  array_at m a w elts ->
  (i < List.length elts)%nat ->
  load_bytes m (a + Z.of_nat w * Z.of_nat i) w
  = Some (le_bytes w (nth i elts 0)).
Proof.
  intros (pre & post & -> & ->) Hi.
  revert pre i Hi. induction elts as [| e elts IH]; intros pre i Hi.
  - simpl in Hi. lia.
  - destruct i as [| i].
    + cbn [flat_map nth]. rewrite Z.mul_0_r, Z.add_0_r, <- app_assoc.
      rewrite <- (length_le_bytes w e) at 3. apply load_bytes_app.
    + cbn [flat_map nth]. simpl in Hi.
      rewrite <- app_assoc, (app_assoc pre).
      replace (Z.of_nat (List.length pre) + Z.of_nat w * Z.of_nat (S i))
        with (Z.of_nat (List.length (pre ++ le_bytes w e))
              + Z.of_nat w * Z.of_nat i).
      * apply IH. lia.
      * rewrite length_app, length_le_bytes. lia.
Qed.

(** ** IndexConverter *)

Lemma load_array_elt (m : Memory) (a : Z) (w : nat) (elts : list Z) (i : Z) :
  array_at m a w elts ->
  Forall (fun v => 0 <= v < 256 ^ Z.of_nat w) elts ->
  0 <= i < Z.of_nat (List.length elts) ->
  option_map le_value (load_bytes m (a + Z.of_nat w * i) w)
  = Some (nth (Z.to_nat i) elts 0).
Proof.
  intros Harr Hall Hi.
  rewrite <- (Z2Nat.id i) at 1 by lia.
  rewrite (array_at_load m a w elts (Z.to_nat i) Harr) by lia.
  cbn [option_map]. f_equal. apply le_value_le_bytes.
  rewrite Forall_forall in Hall. apply Hall, nth_In. lia.
Qed.

(** C5.  A converter built for a vertex type without index width
    ("none") maps every position to itself; one built with the 8-bit,
    16-bit or 32-bit width returns the element at that position of the
    index buffer, read as an array of 1-, 2- or 4-byte elements. *)
Theorem convert_by_index_width (m : Memory) (vertType indices i : Z) :
  let c := IndexConverter.make vertType indices in
  (Z.land vertType GE_VTYPE_IDX_MASK = GE_VTYPE_IDX_NONE ->
   IndexConverter.convert m c i = Some i) /\
  (forall (w : nat) (elts : list Z),
      (w = 1%nat /\ Z.land vertType GE_VTYPE_IDX_MASK = GE_VTYPE_IDX_8BIT) \/
      (w = 2%nat /\ Z.land vertType GE_VTYPE_IDX_MASK = GE_VTYPE_IDX_16BIT) \/
      (w = 4%nat /\ Z.land vertType GE_VTYPE_IDX_MASK = GE_VTYPE_IDX_32BIT) ->
      array_at m indices w elts ->
      Forall (fun v => 0 <= v < 256 ^ Z.of_nat w) elts ->
      0 <= i < Z.of_nat (List.length elts) ->
      IndexConverter.convert m c i = Some (nth (Z.to_nat i) elts 0)).
Proof.
  intros c. unfold c, IndexConverter.make, IndexConverter.convert.
  cbn [IndexConverter.indexType IndexConverter.indices].
  split.
  - intros ->. reflexivity.
  - intros w elts Hw Harr Hall Hi.
    destruct Hw as [[-> ->] | [[-> ->] | [-> ->]]]; cbn [Z.eqb Pos.eqb];
      [ change (load_u8 m (indices + i))
          with (option_map le_value (load_bytes m (indices + i) 1));
        replace (indices + i) with (indices + Z.of_nat 1 * i) by lia
      | change (load_u16 m (indices + 2 * i))
          with (option_map le_value
                  (load_bytes m (indices + Z.of_nat 2 * i) 2))
      | change (load_u32 m (indices + 4 * i))
          with (option_map le_value
                  (load_bytes m (indices + Z.of_nat 4 * i) 4)) ];
      now apply load_array_elt.
Qed.

(** C8.  With an index type that is none of the 8-bit, 16-bit and 32-bit
    tags, whatever its value, [convert] returns the position unchanged,
    without reading memory, exactly as a converter for unindexed drawing
    does. *)
Theorem convert_default_is_identity (m : Memory) (c : IndexConverter.t)
        (index : Z) :
  IndexConverter.indexType c <> GE_VTYPE_IDX_8BIT ->
  IndexConverter.indexType c <> GE_VTYPE_IDX_16BIT ->
  IndexConverter.indexType c <> GE_VTYPE_IDX_32BIT ->
  IndexConverter.convert m c index = Some index /\
  IndexConverter.convert m c index
  = IndexConverter.convert m
      (IndexConverter.make GE_VTYPE_IDX_NONE (IndexConverter.indices c)) index.
Proof.
  intros H8 H16 H32. unfold IndexConverter.convert.
  destruct (Z.eqb_spec (IndexConverter.indexType c) GE_VTYPE_IDX_8BIT);
    [contradiction |].
  destruct (Z.eqb_spec (IndexConverter.indexType c) GE_VTYPE_IDX_16BIT);
    [contradiction |].
  destruct (Z.eqb_spec (IndexConverter.indexType c) GE_VTYPE_IDX_32BIT);
    [contradiction |].
  split; reflexivity.
Qed.

(** ** Effects *)

Lemma silent_ret {A : Type} (a : A) : silent (ret a).
Proof. exists (Some a). reflexivity. Qed.

Lemma silent_lift {A : Type} (o : option A) : silent (lift o).
Proof. exists o. intros st. unfold lift. destruct o; reflexivity. Qed.

Lemma silent_bind {A B : Type} (c : Eff A) (k : A -> Eff B) :
  silent c -> (forall a, silent (k a)) -> silent (bind c k).
Proof.
  intros [o Ho] Hk. destruct o as [a |].
  - destruct (Hk a) as [ob Hob]. exists ob. intros st.
    unfold bind. rewrite Ho. apply Hob.
  - exists None. intros st. unfold bind. now rewrite Ho.
Qed.

Lemma silent_for_from {A : Type} (body : Z -> Eff A) (n : nat) :
  (forall i, silent (body i)) -> forall i, silent (for_from i n body).
Proof.
  intros Hb. induction n as [| n IH]; intros i; cbn [for_from].
  - apply silent_ret.
  - apply silent_bind; [apply Hb |]. intros x.
    apply silent_bind; [apply IH |]. intros xs. apply silent_ret.
Qed.

Lemma silent_for_i {A : Type} (body : Z -> Eff A) (n : nat) :
  (forall i, silent (body i)) -> silent (for_i n body).
Proof. intros Hb. now apply silent_for_from. Qed.

Lemma silent_memcpy_floats (m : Memory) (src : Z) (n : nat) :
  silent (memcpy_floats m src n).
Proof. apply silent_for_i. intros i. apply silent_lift. Qed.

Lemma silent_steady {A : Type} (c : Eff A) : silent c -> steady c.
Proof.
  intros [o Ho]. exists o. intros st. rewrite Ho.
  destruct o; reflexivity.
Qed.

Lemma silent_preserves {A : Type} (c : Eff A) : silent c -> preserves c.
Proof.
  intros [o Ho] st a st' H Hinv. rewrite Ho in H.
  destruct o; [| discriminate]. now inversion H; subst.
Qed.

Lemma steady_bind {A B : Type} (c : Eff A) (k : A -> Eff B) :
  steady c -> (forall a, steady (k a)) -> steady (bind c k).
Proof.
  intros [o Ho] Hk. destruct o as [a |].
  - destruct (Hk a) as [ob Hob]. exists ob. intros st.
    specialize (Ho st). unfold bind, result in *.
    destruct (c st) as [[a' st'] |]; [| discriminate].
    cbn in Ho. inversion Ho; subst. apply Hob.
  - exists None. intros st. specialize (Ho st). unfold bind, result in *.
    destruct (c st) as [[a' st'] |]; [discriminate | reflexivity].
Qed.

Lemma preserves_bind {A B : Type} (c : Eff A) (k : A -> Eff B) :
  preserves c -> (forall a, preserves (k a)) -> preserves (bind c k).
Proof.
  intros Hc Hk st b st' H Hinv. unfold bind in H.
  destruct (c st) as [[a st1] |] eqn:E; [| discriminate].
  eapply Hk; [exact H |]. eapply Hc; eauto.
Qed.

Lemma existsb_eqb_In (n : string) (l : list string) :
  existsb (String.eqb n) l = true <-> In n l.
Proof.
  rewrite existsb_exists. split.
  - intros (x & Hx & Heq). apply String.eqb_eq in Heq. now subst.
  - intros H. exists n. split; [exact H | apply String.eqb_refl].
Qed.

Lemma report_once_steady (n msg : string) (arg : Z) :
  steady (ERROR_LOG_REPORT_ONCE n msg arg).
Proof.
  exists (Some tt). intros st. unfold ERROR_LOG_REPORT_ONCE.
  destruct (existsb (String.eqb n) (reported st)); reflexivity.
Qed.

Lemma report_once_preserves (n msg : string) (arg : Z) :
  preserves (ERROR_LOG_REPORT_ONCE n msg arg).
Proof.
  intros st a st' H [Hnd Hin]. unfold ERROR_LOG_REPORT_ONCE in H.
  destruct (existsb (String.eqb n) (reported st)) eqn:E.
  - inversion H; subst. now split.
  - inversion H; subst; clear H. unfold reports_once.
    cbn [diagnostics reported]. split.
    + rewrite map_app. cbn [map d_name].
      apply NoDup_app; [exact Hnd | repeat constructor; intros [] |].
      intros x Hx [<- | []]. apply in_map_iff in Hx as (d & <- & Hd).
      apply Hin, existsb_eqb_In in Hd. congruence.
    + intros d Hd. apply in_app_or in Hd as [Hd | [<- | []]].
      * right. now apply Hin.
      * now left.
Qed.

(** ** VertexReader: the shape of a read *)

Ltac silent_steps :=
  repeat first
    [ apply silent_ret
    | apply silent_lift
    | apply silent_memcpy_floats
    | apply silent_for_i; intros
    | apply silent_bind; [| intros] ].

Lemma bind_report_zero_fill {A B : Type} (n msg : string) (arg : Z)
      (v : A) (k : A -> B) (st : Reporting) :
  ((ERROR_LOG_REPORT_ONCE n msg arg ;;; ret v) >>= (fun out => ret (k out))) st
  = (ERROR_LOG_REPORT_ONCE n msg arg ;;; ret (k v)) st.
Proof.
  unfold bind, ret.
  destruct (ERROR_LOG_REPORT_ONCE n msg arg st) as [[[] st1] |]; reflexivity.
Qed.

(** A read either finds a case for its format tag, and then only loads
    and computes, or it raises its one-time report and zero-fills. *)
Lemma call_cases (m : Memory) (c : Call) (r : VertexReader.t) :
  (supported c (VertexReader.decFmt_ r) = true /\ silent (call m c r)) \/
  (supported c (VertexReader.decFmt_ r) = false /\
   exists n msg arg,
     forall st,
       call m c r st
       = (ERROR_LOG_REPORT_ONCE n msg arg ;;;
          ret (r, memset_floats (components c))) st).
Proof.
  destruct c; cbn [supported call components];
    unfold VertexReader.ReadPos, VertexReader.ReadPosThroughZ16,
      VertexReader.ReadNrm, VertexReader.ReadUV, VertexReader.ReadColor0,
      VertexReader.ReadColor1;
    cbv zeta;
    try (left; split; [reflexivity | silent_steps]; fail);
    repeat match goal with
           | |- context [?x =? ?y] =>
               destruct (x =? y);
               cbn [orb];
               try (left; split; [reflexivity |];
                    destruct (VertexReader.isThrough r); silent_steps; fail)
           end;
    right; (split; [reflexivity |]); do 3 eexists; intros st;
    apply (bind_report_zero_fill _ _ _ _ (pair r)).
Qed.

Lemma call_steady (m : Memory) (c : Call) (r : VertexReader.t) :
  steady (call m c r).
Proof.
  destruct (call_cases m c r) as [[_ H] | [_ (n & msg & arg & H)]].
  - now apply silent_steady.
  - exists (Some (r, memset_floats (components c))). intros st. rewrite H.
    unfold bind, ret, ERROR_LOG_REPORT_ONCE.
    destruct (existsb (String.eqb n) (reported st)); reflexivity.
Qed.

Lemma call_preserves (m : Memory) (c : Call) (r : VertexReader.t) :
  preserves (call m c r).
Proof.
  destruct (call_cases m c r) as [[_ H] | [_ (n & msg & arg & H)]].
  - now apply silent_preserves.
  - intros st a st' E. rewrite H in E. revert st a st' E.
    apply preserves_bind; [apply report_once_preserves |].
    intros _. apply silent_preserves, silent_ret.
Qed.

Lemma call_unsupported (m : Memory) (c : Call) (r : VertexReader.t)
      (st : Reporting) :
  supported c (VertexReader.decFmt_ r) = false ->
  exists st',
    call m c r st = Some ((r, memset_floats (components c)), st').
Proof.
  intros Hu.
  destruct (call_cases m c r) as [[H _] | [_ (n & msg & arg & H)]];
    [congruence |].
  rewrite H. unfold bind, ret, ERROR_LOG_REPORT_ONCE.
  destruct (existsb (String.eqb n) (reported st)); eexists; reflexivity.
Qed.

Lemma calls_steady (m : Memory) (cs : list Call) :
  forall r, steady (calls m cs r).
Proof.
  induction cs as [| c cs IH]; intros r; cbn [calls].
  - apply silent_steady, silent_ret.
  - apply steady_bind; [apply call_steady |]. intros ro.
    apply steady_bind; [apply IH |]. intros outs.
    apply silent_steady, silent_ret.
Qed.

Lemma calls_preserves (m : Memory) (cs : list Call) :
  forall r, preserves (calls m cs r).
Proof.
  induction cs as [| c cs IH]; intros r; cbn [calls].
  - apply silent_preserves, silent_ret.
  - apply preserves_bind; [apply call_preserves |]. intros ro.
    apply preserves_bind; [apply IH |]. intros outs.
    apply silent_preserves, silent_ret.
Qed.

Lemma reports_once_initial : reports_once no_reports.
Proof. split; [constructor | intros d []]. Qed.

(** An unsupported read in front of a sequence of calls adds its zeros
    and changes nothing of what the later calls return. *)
Lemma calls_after_unsupported (m : Memory) (c : Call) (cs : list Call)
      (r : VertexReader.t) (st : Reporting) :
  supported c (VertexReader.decFmt_ r) = false ->
  result (calls m (c :: cs) r st)
  = option_map (cons (memset_floats (components c)))
               (result (calls m cs r st)).
Proof.
  intros Hu. destruct (call_unsupported m c r st Hu) as [st1 H1].
  destruct (calls_steady m cs r) as [o Ho].
  rewrite (Ho st). cbn [calls]. unfold bind at 1. rewrite H1. cbn [fst snd].
  specialize (Ho st1). unfold bind, ret, result in *.
  destruct (calls m cs r st1) as [[outs st2] |]; cbn in *; now subst.
Qed.

Lemma raised_at_most_once (n : string) (arg : Z) (st : Reporting) :
  reports_once st -> (raised n arg st <= 1)%nat.
Proof.
  intros [Hnd _]. unfold raised.
  induction (diagnostics st) as [| d l IH]; cbn [filter map] in *.
  - cbn. lia.
  - apply NoDup_cons_iff in Hnd as [Hd Hl].
    destruct (String.eqb_spec (d_name d) n) as [<- |]; cbn [andb].
    + assert (Hnone :
          filter (fun d' =>
                    String.eqb (d_name d') (d_name d) && (d_arg d' =? arg)) l
          = []).
      { clear IH Hl. induction l as [| e l IHl]; [reflexivity |].
        cbn [filter].
        destruct (String.eqb_spec (d_name e) (d_name d)) as [E |].
        - exfalso. apply Hd. left. exact E.
        - cbn [andb]. apply IHl. intros H. apply Hd. now right. }
      rewrite Hnone. destruct (d_arg d =? arg); cbn; lia.
    + now apply IH.
Qed.

Lemma read_of_call {A R : Type} (P : Eff A) (r : R) (v : A)
      (st st' : Reporting) :
  (out <- P ;; ret (r, out)) st = Some ((r, v), st') -> P st = Some (v, st').
Proof.
  unfold bind, ret. destruct (P st) as [[a s1] |]; [| discriminate].
  intros H. now inversion H.
Qed.

(** C4.  A read whose format tag has no case in its switch returns zeros
    for its attribute (three for the normal, the position and the second
    color, two for the texture coordinate, four for the first color); in
    any sequence of calls a report raises at most one diagnostic about a
    given format value; and the read does not stop the caller: the calls
    after it, on this vertex or after [Goto] on others, return what they
    return without it. *)
Theorem unsupported_format_is_absorbed (m : Memory) (r : VertexReader.t)
        (st : Reporting) :
  let f := VertexReader.decFmt_ r in
  (supported CallReadNrm f = false ->
   result (VertexReader.ReadNrm m r st)
   = Some [F32.zero; F32.zero; F32.zero]) /\
  (supported CallReadPos f = false ->
   result (VertexReader.ReadPos m r st)
   = Some [F32.zero; F32.zero; F32.zero]) /\
  (supported CallReadUV f = false ->
   result (VertexReader.ReadUV m r st) = Some [F32.zero; F32.zero]) /\
  (supported CallReadColor0 f = false ->
   result (VertexReader.ReadColor0 m r st)
   = Some [F32.zero; F32.zero; F32.zero; F32.zero]) /\
  (supported CallReadColor1 f = false ->
   result (VertexReader.ReadColor1 m r st)
   = Some [F32.zero; F32.zero; F32.zero]) /\
  (forall cs outs st',
      reports_once st ->
      calls m cs r st = Some (outs, st') ->
      forall n arg, (raised n arg st' <= 1)%nat) /\
  (forall c cs,
      supported c f = false ->
      result (calls m (c :: cs) r st)
      = option_map (cons (repeat F32.zero (components c)))
                   (result (calls m cs r st))).
Proof.
  intros f.
  assert (Hread : forall c (P : Eff (list float)),
             (forall s, call m c r s = (out <- P ;; ret (r, out)) s) ->
             supported c f = false ->
             result (P st) = Some (repeat F32.zero (components c))).
  { intros c P HP Hu.
    destruct (call_unsupported m c r st Hu) as [st' H].
    rewrite HP in H. apply read_of_call in H. now rewrite H. }
  repeat split.
  - apply (Hread CallReadNrm). reflexivity.
  - apply (Hread CallReadPos). reflexivity.
  - apply (Hread CallReadUV). reflexivity.
  - apply (Hread CallReadColor0). reflexivity.
  - apply (Hread CallReadColor1). reflexivity.
  - intros cs outs st' Hinv Hrun n arg.
    apply raised_at_most_once. eapply calls_preserves; eauto.
  - intros c cs Hu. now apply calls_after_unsupported.
Qed.

(** ** Ranges of loaded values *)

Lemma load_bytes_length (m : Memory) (a : Z) (n : nat) (bs : list byte) :
  load_bytes m a n = Some bs -> List.length bs = n.
Proof.
  unfold load_bytes.
  destruct (Z.leb_spec 0 a); cbn [andb]; [| discriminate].
  destruct (Z.leb_spec (a + Z.of_nat n) (Z.of_nat (List.length m)));
    [| discriminate].
  intros Hs. inversion Hs; subst; clear Hs.
  rewrite length_firstn, length_skipn. lia.
Qed.

Lemma le_value_range (bs : list byte) :
  0 <= le_value bs < 256 ^ Z.of_nat (List.length bs).
Proof.
  induction bs as [| b bs IH]; cbn [le_value List.length].
  - cbn. lia.
  - rewrite Nat2Z.inj_succ, Z.pow_succ_r by lia.
    pose proof (byte_val_range b). lia.
Qed.

Lemma load_u8_range (m : Memory) (a v : Z) :
  load_u8 m a = Some v -> 0 <= v < 256.
Proof.
  unfold load_u8. destruct (load_bytes m a 1) as [bs |] eqn:E; [| discriminate].
  intros H. inversion H; subst. apply load_bytes_length in E.
  pose proof (le_value_range bs) as Hr. rewrite E in Hr. exact Hr.
Qed.

Lemma load_u16_range (m : Memory) (a v : Z) :
  load_u16 m a = Some v -> 0 <= v < 65536.
Proof.
  unfold load_u16.
  destruct (load_bytes m a 2) as [bs |] eqn:E; [| discriminate].
  intros H. inversion H; subst. apply load_bytes_length in E.
  pose proof (le_value_range bs) as Hr. rewrite E in Hr. exact Hr.
Qed.

Lemma signed_range (w z : Z) :
  0 < w -> - 2 ^ (w - 1) <= signed w z < 2 ^ (w - 1).
Proof.
  intros Hw. unfold signed.
  assert (Hp : 2 ^ w = 2 * 2 ^ (w - 1)).
  { replace w with (Z.succ (w - 1)) at 1 by lia. apply Z.pow_succ_r. lia. }
  assert (Hpos : 0 < 2 ^ (w - 1)) by (apply Z.pow_pos_nonneg; lia).
  pose proof (Z.mod_pos_bound z (2 ^ w) ltac:(lia)) as Hm.
  destruct (Z.ltb_spec (z mod 2 ^ w) (2 ^ (w - 1))); lia.
Qed.

Lemma load_s8_range (m : Memory) (a v : Z) :
  load_s8 m a = Some v -> -128 <= v < 128.
Proof.
  unfold load_s8. destruct (load_u8 m a); [| discriminate].
  intros H. inversion H; subst. apply (signed_range 8). lia.
Qed.

Lemma load_s16_range (m : Memory) (a v : Z) :
  load_s16 m a = Some v -> -32768 <= v < 32768.
Proof.
  unfold load_s16. destruct (load_u16 m a); [| discriminate].
  intros H. inversion H; subst. apply (signed_range 16). lia.
Qed.

(** ** Exhaustive checks *)

Lemma all_from_spec (p : Z -> bool) (n : nat) :
  forall z, all_from z n p = true ->
            forall v, z <= v < z + Z.of_nat n -> p v = true.
Proof.
  induction n as [| n IH]; intros z H v Hv.
  - lia.
  - cbn [all_from] in H. apply andb_true_iff in H as [Hz Hrest].
    destruct (Z.eq_dec v z) as [-> | Hne]; [exact Hz |].
    apply (IH (z + 1)); [exact Hrest | lia].
Qed.

Lemma through_z16_all (z : Z) : 0 <= z < 65536 -> through_z16_ok z = true.
Proof.
  intros Hz.
  apply (all_from_spec through_z16_ok (Z.to_nat 65536) 0); [| lia].
  vm_compute. reflexivity.
Qed.

Lemma pos_s16_below_one (s : Z) :
  -32768 <= s < 32768 -> scaled_below_one 32768 s = true.
Proof.
  intros Hs.
  apply (all_from_spec (scaled_below_one 32768) (Z.to_nat 65536) (-32768));
    [| lia].
  vm_compute. reflexivity.
Qed.

Lemma pos_s8_below_one (b : Z) :
  -128 <= b < 128 -> scaled_below_one 128 b = true.
Proof.
  intros Hb.
  apply (all_from_spec (scaled_below_one 128) (Z.to_nat 256) (-128)); [| lia].
  vm_compute. reflexivity.
Qed.

(** ** VertexReader: positions in through mode *)

(** Runs the loads of a read: the loops are unrolled, the addresses put
    in the form [base + offset] and the loads rewritten from the
    hypotheses. *)
Ltac run_read :=
  cbv zeta; unfold memcpy_floats; unfold for_i; cbn [for_from];
  cbn [Z.add Z.mul Pos.add Pos.mul Pos.succ Pos.add_carry];
  rewrite ?Z.add_0_r;
  unfold bind, lift, ret, result;
  repeat match goal with
         | H : ?l = Some _ |- context [?l] => rewrite H
         end;
  cbn [option_map fst app].

(** C3.  For a through-mode vertex whose position is a signed 16-bit
    triplet with unsigned 16-bit Z value [z]: [ReadPos] returns
    [z * (1 / 65535)] for Z, a value in [0, 1]; [ReadPosThroughZ16]
    returns [z] itself, a value in [0, 65535]; both return the same X and
    Y; and the two Z values differ unless [z] is 0. *)
Theorem through_z_normalized_and_raw (m : Memory) (r : VertexReader.t)
        (st : Reporting) (x y z : Z) :
  let a := VertexReader.data_ r + posoff (VertexReader.decFmt_ r) in
  posfmt (VertexReader.decFmt_ r) = DEC_S16_3 ->
  VertexReader.isThrough r = true ->
  load_s16 m a = Some x ->
  load_s16 m (a + 2) = Some y ->
  load_u16 m (a + 4) = Some z ->
  let nz := scaled 65535 z in
  result (VertexReader.ReadPos m r st)
  = Some [F32.of_int x; F32.of_int y; nz] /\
  F32.leb F32.zero nz = true /\ F32.leb nz (F32.of_int 1) = true /\
  result (VertexReader.ReadPosThroughZ16 m r st)
  = Some [F32.of_int x; F32.of_int y; F32.of_int z] /\
  F32.leb F32.zero (F32.of_int z) = true /\
  F32.leb (F32.of_int z) (F32.of_int 65535) = true /\
  (z <> 0 -> F32.eqb nz (F32.of_int z) = false).
Proof.
  intros a Hfmt Hthr Hx Hy Hz nz. subst a nz. unfold scaled.
  pose proof (through_z16_all z (load_u16_range _ _ _ Hz)) as Hok.
  unfold through_z16_ok in Hok. cbv zeta in Hok.
  repeat (apply andb_true_iff in Hok as [Hok ?]).
  unfold VertexReader.ReadPos, VertexReader.ReadPosThroughZ16,
    VertexReader.lit.
  rewrite Hfmt, Hthr.
  change (DEC_S16_3 =? DEC_FLOAT_3) with false.
  change (DEC_S16_3 =? DEC_S16_3) with true.
  cbv iota. run_read.
  repeat split; try assumption.
  intros Hnz.
  match goal with
  | H : (z =? 0) || _ = true |- _ =>
      destruct (Z.eqb_spec z 0); [contradiction |];
      cbn [orb] in H; now apply negb_true_iff in H
  end.
Qed.

Lemma load_u16_of_s16 (m : Memory) (a s : Z) :
  load_s16 m a = Some s -> load_u16 m a = Some (s mod 65536).
Proof.
  unfold load_s16. destruct (load_u16 m a) as [u |] eqn:E; [| discriminate].
  intros H. inversion H; subst; clear H. f_equal.
  pose proof (load_u16_range _ _ _ E) as Hu. unfold signed.
  change (2 ^ 16) with 65536. change (2 ^ (16 - 1)) with 32768.
  rewrite (Z.mod_small u) by lia.
  destruct (Z.ltb_spec u 32768).
  - now rewrite Z.mod_small by lia.
  - apply Z.mod_unique with (q := -1); lia.
Qed.

(** C2 (as stated, refuted).  A through-mode position in signed 16-bit
    triplet format whose Z holds the bits of -100 is not read as 0: the
    bits are the unsigned value 65436 and [ReadPos] returns
    [65436 * (1 / 65535)].  With the 16 bits of 70000, which are 4464,
    [ReadPos] does not return 1 and [ReadPosThroughZ16] does not return
    65535. *)
Lemma s16_through_z_is_not_clamped :
  let f := {| uvfmt := 0; uvoff := 0; c0fmt := 0; c0off := 0;
              c1fmt := 0; c1off := 0; nrmfmt := 0; nrmoff := 0;
              posfmt := DEC_S16_3; posoff := 0; stride := 8; id := 0 |} in
  let r := VertexReader.make 0 f GE_VTYPE_THROUGH in
  let m1 : Memory := [x00; x00; x00; x00; x9c; xff; x00; x00] in
  let m2 : Memory := [x00; x00; x00; x00; x70; x11; x00; x00] in
  VertexReader.isThrough r = true /\
  load_s16 m1 4 = Some (-100) /\
  load_u16 m2 4 = Some (70000 mod 65536) /\
  result (VertexReader.ReadPos m1 r no_reports)
  = Some [F32.zero; F32.zero;
          scaled 65535 65436] /\
  ~ (exists x y, result (VertexReader.ReadPos m1 r no_reports)
                 = Some [x; y; F32.zero]) /\
  ~ (exists x y, result (VertexReader.ReadPos m2 r no_reports)
                 = Some [x; y; F32.of_int 1]) /\
  ~ (exists x y, result (VertexReader.ReadPosThroughZ16 m2 r no_reports)
                 = Some [x; y; F32.of_int 65535]).
Proof.
  cbv zeta. repeat split; try (vm_compute; reflexivity);
    intros (x & y & H); vm_compute in H; discriminate H.
Qed.

(** C2 (amended).  In through mode the clamp is applied to a position in
    float triplet format: a stored Z of -100.0 is read as 0.0 by both
    readers, a stored Z of 70000.0 as 1.0 by [ReadPos] and as 65535.0 by
    [ReadPosThroughZ16].  In signed 16-bit triplet format the Z is an
    unsigned 16-bit value and is not clamped: the bits of -100 are read
    as 65436, which [ReadPos] returns as [65436 * (1 / 65535)] and
    [ReadPosThroughZ16] as 65436.0. *)
Theorem through_z_clamping (m : Memory) (r : VertexReader.t) (st : Reporting) :
  let a := VertexReader.data_ r + posoff (VertexReader.decFmt_ r) in
  VertexReader.isThrough r = true ->
  (forall fx fy : float,
      posfmt (VertexReader.decFmt_ r) = DEC_FLOAT_3 ->
      load_float m a = Some fx ->
      load_float m (a + 4) = Some fy ->
      (load_float m (a + 8) = Some (F32.of_int (-100)) ->
       result (VertexReader.ReadPos m r st) = Some [fx; fy; F32.zero] /\
       result (VertexReader.ReadPosThroughZ16 m r st)
       = Some [fx; fy; F32.zero]) /\
      (load_float m (a + 8) = Some (F32.of_int 70000) ->
       result (VertexReader.ReadPos m r st) = Some [fx; fy; F32.of_int 1] /\
       result (VertexReader.ReadPosThroughZ16 m r st)
       = Some [fx; fy; F32.of_int 65535])) /\
  (forall x y : Z,
      posfmt (VertexReader.decFmt_ r) = DEC_S16_3 ->
      load_s16 m a = Some x ->
      load_s16 m (a + 2) = Some y ->
      load_s16 m (a + 4) = Some (-100) ->
      result (VertexReader.ReadPos m r st)
      = Some [F32.of_int x; F32.of_int y;
              F32.mul (F32.of_int 65436)
                      (F32.div (F32.of_int 1) (F32.of_int 65535))] /\
      result (VertexReader.ReadPosThroughZ16 m r st)
      = Some [F32.of_int x; F32.of_int y; F32.of_int 65436]).
Proof.
  intros a Hthr. subst a. split.
  - intros fx fy Hfmt Hx Hy.
    unfold VertexReader.ReadPos, VertexReader.ReadPosThroughZ16,
      VertexReader.lit.
    rewrite Hfmt, Hthr. change (DEC_FLOAT_3 =? DEC_FLOAT_3) with true.
    cbv iota.
    split; intros Hz; run_read; split; vm_compute; reflexivity.
  - intros x y Hfmt Hx Hy Hz.
    apply load_u16_of_s16 in Hz. change (-100 mod 65536) with 65436 in Hz.
    unfold VertexReader.ReadPos, VertexReader.ReadPosThroughZ16,
      VertexReader.lit.
    rewrite Hfmt, Hthr.
    change (DEC_S16_3 =? DEC_FLOAT_3) with false.
    change (DEC_S16_3 =? DEC_S16_3) with true.
    cbv iota. run_read. split; reflexivity.
Qed.

(** ** VertexReader: normals, positions and the second color *)

Lemma for_from_length {A : Type} (body : Z -> Eff A) (n : nat) :
  forall i st l st',
    for_from i n body st = Some (l, st') -> List.length l = n.
Proof.
  induction n as [| n IH]; intros i st l st' H; cbn [for_from] in H.
  - inversion H. reflexivity.
  - unfold bind, ret in H.
    destruct (body i st) as [[x s1] |]; [| discriminate].
    destruct (for_from (i + 1) n body s1) as [[xs s2] |] eqn:E;
      [| discriminate].
    inversion H; subst. cbn [List.length]. f_equal. eapply IH, E.
Qed.

(** C10.  [ReadNrm] scales a signed 8-bit component by [1 / 127] and a
    signed 16-bit one by [1 / 32767], so that 127 and 32767 decode to
    exactly 1.0; [ReadPos] outside through mode scales by [1 / 128] and
    [1 / 32768], and every component it returns is below 1.0. *)
Theorem normal_and_position_divisors (m : Memory) (r : VertexReader.t)
        (st : Reporting) (v0 v1 v2 : Z) :
  let na := VertexReader.data_ r + nrmoff (VertexReader.decFmt_ r) in
  let pa := VertexReader.data_ r + posoff (VertexReader.decFmt_ r) in
  (nrmfmt (VertexReader.decFmt_ r) = DEC_S8_3 ->
   load_s8 m na = Some v0 -> load_s8 m (na + 1) = Some v1 ->
   load_s8 m (na + 2) = Some v2 ->
   result (VertexReader.ReadNrm m r st)
   = Some [scaled 127 v0; scaled 127 v1; scaled 127 v2]) /\
  (nrmfmt (VertexReader.decFmt_ r) = DEC_S16_3 ->
   load_s16 m na = Some v0 -> load_s16 m (na + 2) = Some v1 ->
   load_s16 m (na + 4) = Some v2 ->
   result (VertexReader.ReadNrm m r st)
   = Some [scaled 32767 v0; scaled 32767 v1; scaled 32767 v2]) /\
  scaled 127 127 = F32.of_int 1 /\
  scaled 32767 32767 = F32.of_int 1 /\
  (VertexReader.isThrough r = false ->
   posfmt (VertexReader.decFmt_ r) = DEC_S8_3 ->
   load_s8 m pa = Some v0 -> load_s8 m (pa + 1) = Some v1 ->
   load_s8 m (pa + 2) = Some v2 ->
   result (VertexReader.ReadPos m r st)
   = Some [scaled 128 v0; scaled 128 v1; scaled 128 v2] /\
   Forall (fun v => F32.ltb (scaled 128 v) (F32.of_int 1) = true)
          [v0; v1; v2]) /\
  (VertexReader.isThrough r = false ->
   posfmt (VertexReader.decFmt_ r) = DEC_S16_3 ->
   load_s16 m pa = Some v0 -> load_s16 m (pa + 2) = Some v1 ->
   load_s16 m (pa + 4) = Some v2 ->
   result (VertexReader.ReadPos m r st)
   = Some [scaled 32768 v0; scaled 32768 v1; scaled 32768 v2] /\
   Forall (fun v => F32.ltb (scaled 32768 v) (F32.of_int 1) = true)
          [v0; v1; v2]).
Proof.
  intros na pa. subst na pa.
  unfold VertexReader.ReadNrm, VertexReader.ReadPos, VertexReader.lit.
  repeat match goal with |- _ /\ _ => split end.
  - intros Hfmt H0 H1 H2. rewrite Hfmt.
    change (DEC_S8_3 =? DEC_FLOAT_3) with false.
    change (DEC_S8_3 =? DEC_S16_3) with false.
    change (DEC_S8_3 =? DEC_S8_3) with true.
    cbv iota. run_read. reflexivity.
  - intros Hfmt H0 H1 H2. rewrite Hfmt.
    change (DEC_S16_3 =? DEC_FLOAT_3) with false.
    change (DEC_S16_3 =? DEC_S16_3) with true.
    cbv iota. run_read. reflexivity.
  - vm_compute. reflexivity.
  - vm_compute. reflexivity.
  - intros Hthr Hfmt H0 H1 H2. rewrite Hfmt, Hthr.
    change (DEC_S8_3 =? DEC_FLOAT_3) with false.
    change (DEC_S8_3 =? DEC_S16_3) with false.
    change (DEC_S8_3 =? DEC_S8_3) with true.
    cbv iota. split; [run_read; reflexivity |].
    repeat constructor;
      apply pos_s8_below_one; eapply load_s8_range; eassumption.
  - intros Hthr Hfmt H0 H1 H2. rewrite Hfmt, Hthr.
    change (DEC_S16_3 =? DEC_FLOAT_3) with false.
    change (DEC_S16_3 =? DEC_S16_3) with true.
    cbv iota. split; [run_read; reflexivity |].
    repeat constructor;
      apply pos_s16_below_one; eapply load_s16_range; eassumption.
Qed.

Lemma load_u8_array (m : Memory) (a : Z) (elts : list Z) (i : Z) :
  array_at m a 1 elts ->
  Forall (fun v => 0 <= v < 256) elts ->
  0 <= i < Z.of_nat (List.length elts) ->
  load_u8 m (a + i) = Some (nth (Z.to_nat i) elts 0).
Proof.
  intros Harr Hall Hi. unfold load_u8.
  replace (a + i) with (a + Z.of_nat 1 * i) by lia.
  now apply load_array_elt.
Qed.

Lemma load_float_array (m : Memory) (a : Z) (elts : list Z) (i : Z) :
  array_at m a 4 elts ->
  Forall (fun v => 0 <= v < 4294967296) elts ->
  0 <= i < Z.of_nat (List.length elts) ->
  load_float m (a + 4 * i) = Some (F32.of_bits (nth (Z.to_nat i) elts 0)).
Proof.
  intros Harr Hall Hi. unfold load_float, load_u32.
  change 4 with (Z.of_nat 4) at 1.
  rewrite (load_array_elt m a 4 elts i Harr Hall Hi). reflexivity.
Qed.

(** C9.  [ReadColor1] returns three components whatever the format.  For
    the four 8-bit and the four float encodings they are the red, green
    and blue components stored at the color's offset; nothing is said
    about the memory after them, so the stored alpha has no part in the
    result and need not even exist. *)
Theorem color1_reads_three_components (m : Memory) (r : VertexReader.t)
        (st : Reporting) (red green blue : Z) :
  let a := VertexReader.data_ r + c1off (VertexReader.decFmt_ r) in
  (forall out st',
      VertexReader.ReadColor1 m r st = Some (out, st') ->
      List.length out = 3%nat) /\
  (c1fmt (VertexReader.decFmt_ r) = DEC_U8_4 ->
   array_at m a 1 [red; green; blue] ->
   Forall (fun v => 0 <= v < 256) [red; green; blue] ->
   result (VertexReader.ReadColor1 m r st)
   = Some [scaled 255 red; scaled 255 green; scaled 255 blue]) /\
  (c1fmt (VertexReader.decFmt_ r) = DEC_FLOAT_4 ->
   array_at m a 4 [red; green; blue] ->
   Forall (fun v => 0 <= v < 4294967296) [red; green; blue] ->
   result (VertexReader.ReadColor1 m r st)
   = Some [F32.of_bits red; F32.of_bits green; F32.of_bits blue]).
Proof.
  intros a. subst a. unfold VertexReader.ReadColor1, VertexReader.lit.
  cbv zeta. repeat match goal with |- _ /\ _ => split end.
  - intros out st'.
    destruct (c1fmt (VertexReader.decFmt_ r) =? DEC_U8_4);
      [| destruct (c1fmt (VertexReader.decFmt_ r) =? DEC_FLOAT_4)].
    + apply for_from_length.
    + apply for_from_length.
    + unfold bind, ret.
      destruct (ERROR_LOG_REPORT_ONCE _ _ _ st) as [[[] s1] |];
        [| discriminate].
      intros H. inversion H. reflexivity.
  - intros Hfmt Harr Hall. rewrite Hfmt.
    change (DEC_U8_4 =? DEC_U8_4) with true. cbv iota.
    pose proof (load_u8_array m _ _ 0 Harr Hall ltac:(cbn; lia)) as H0.
    pose proof (load_u8_array m _ _ 1 Harr Hall ltac:(cbn; lia)) as H1.
    pose proof (load_u8_array m _ _ 2 Harr Hall ltac:(cbn; lia)) as H2.
    cbn [nth Z.to_nat Pos.to_nat Pos.iter_op Nat.add] in H0, H1, H2.
    rewrite Z.add_0_r in H0.
    run_read. reflexivity.
  - intros Hfmt Harr Hall. rewrite Hfmt.
    change (DEC_FLOAT_4 =? DEC_U8_4) with false.
    change (DEC_FLOAT_4 =? DEC_FLOAT_4) with true. cbv iota.
    pose proof (load_float_array m _ _ 0 Harr Hall ltac:(cbn; lia)) as H0.
    pose proof (load_float_array m _ _ 1 Harr Hall ltac:(cbn; lia)) as H1.
    pose proof (load_float_array m _ _ 2 Harr Hall ltac:(cbn; lia)) as H2.
    cbn [nth Z.to_nat Pos.to_nat Pos.iter_op Nat.add Z.mul Pos.mul]
      in H0, H1, H2.
    rewrite Z.add_0_r in H0.
    run_read. reflexivity.
Qed.

(** ** VertexDecoder: the step pipeline *)

Lemma length_array_set {A : Type} (a : list A) (i : nat) (v : A) :
  List.length (array_set a i v) = List.length a.
Proof.
  revert i. induction a as [| x a IH]; intros [| i]; cbn; auto.
Qed.

Lemma firstn_array_set {A : Type} (a : list A) (i : nat) (v : A) :
  (i < List.length a)%nat ->
  firstn (S i) (array_set a i v) = firstn i a ++ [v].
Proof.
  revert i. induction a as [| x a IH]; intros [| i] Hi; cbn in *; try lia.
  - reflexivity.
  - f_equal. apply IH. lia.
Qed.

Module PlanFacts.
Import VertexDecoder.

Lemma planned_push (attrs : list Attribute) (f : StepFunction) (p : Plan) :
  planned attrs p ->
  (List.length attrs < MAX_STEPS)%nat ->
  planned (attrs ++ [attribute_of f]) (push_step f p).
Proof.
  intros (Hlen & Hnum & Hmap) Hroom. unfold planned, push_step.
  cbn [p_steps p_numSteps]. rewrite Hnum, Nat2Z.id.
  rewrite length_array_set, length_app. cbn [List.length].
  repeat split.
  - exact Hlen.
  - lia.
  - rewrite Nat.add_1_r, firstn_array_set by lia.
    now rewrite map_app, Hmap.
Qed.

Lemma planned_set (attrs : list Attribute) (p : Plan) (fmt : Z) :
  planned attrs p ->
  planned attrs (set_uv fmt p) /\ planned attrs (set_c0 fmt p) /\
  planned attrs (set_nrm fmt p) /\ planned attrs (set_pos fmt p).
Proof. intros H. repeat split; apply H. Qed.

Lemma attribute_by_width (s8 s16 f : StepFunction) (a : Attribute) (w : Z) :
  attribute_of s8 = a -> attribute_of s16 = a -> attribute_of f = a ->
  attribute_of (by_width s8 s16 f w) = a.
Proof.
  intros. unfold by_width. destruct (w =? 1), (w =? 2); assumption.
Qed.

Lemma planned_weights (attrs : list Attribute) (p : Plan) (w : Z) :
  planned attrs p -> (List.length attrs < MAX_STEPS)%nat ->
  exists l, slot_of Weights l /\ planned (attrs ++ l) (plan_weights w p).
Proof.
  intros Hp Hroom. unfold plan_weights. destruct (w =? 0).
  - exists []. rewrite app_nil_r. split; [now left | exact Hp].
  - exists [Weights]. split; [now right |].
    replace Weights with (attribute_of (wtstep_skin w)).
    + now apply planned_push.
    + unfold wtstep_skin. destruct (w =? 1), (w =? 2); reflexivity.
Qed.

Lemma planned_texcoord (attrs : list Attribute) (p : Plan)
      (cfg : PlanConfig) (tc morphcount : Z) (through : bool) :
  planned attrs p -> (List.length attrs < MAX_STEPS)%nat ->
  exists l, slot_of Texcoord l /\
            planned (attrs ++ l) (plan_texcoord cfg tc morphcount through p).
Proof.
  intros Hp Hroom. unfold plan_texcoord. destruct (tc =? 0).
  - exists []. rewrite app_nil_r. split; [now left | exact Hp].
  - exists [Texcoord]. split; [now right |].
    apply planned_set.
    match goal with
    | |- planned _ (push_step ?s _) =>
        replace Texcoord with (attribute_of s); [now apply planned_push |]
    end.
    unfold tcstep, tcstep_through, tcstep_morph, tcstep_prescale,
      tcstep_prescale_morph.
    destruct (prescaleUV cfg), through, (morphcount =? 1), (tc =? 1),
      (tc =? 2), (doubleTextureCoordinates cfg); reflexivity.
Qed.

Lemma planned_color (attrs : list Attribute) (p : Plan) (col morphcount : Z) :
  planned attrs p -> (List.length attrs < MAX_STEPS)%nat ->
  exists l, slot_of Color l /\
            planned (attrs ++ l) (plan_color col morphcount p).
Proof.
  intros Hp Hroom. unfold plan_color. destruct (col =? 0).
  - exists []. rewrite app_nil_r. split; [now left | exact Hp].
  - exists [Color]. split; [now right |].
    apply planned_set.
    match goal with
    | |- planned _ (push_step ?s _) =>
        replace Color with (attribute_of s); [now apply planned_push |]
    end.
    unfold colstep, colstep_morph.
    destruct (morphcount =? 1), (col =? 4), (col =? 5), (col =? 6),
      (col =? 7); reflexivity.
Qed.

Lemma planned_normal (attrs : list Attribute) (p : Plan)
      (options : VertexDecoderOptions) (nrm weighttype morphcount : Z) :
  planned attrs p -> (List.length attrs < MAX_STEPS)%nat ->
  exists l, slot_of Normal l /\
            planned (attrs ++ l)
                    (plan_normal options nrm weighttype morphcount p).
Proof.
  intros Hp Hroom. unfold plan_normal. destruct (nrm =? 0).
  - exists []. rewrite app_nil_r. split; [now left | exact Hp].
  - exists [Normal]. split; [now right |].
    destruct (negb (weighttype =? 0)), (negb (morphcount =? 1)),
      (morphcount =? 1), (nrm =? 1), (expand8BitNormalsToFloat options),
      (nrm =? 2);
      apply planned_set;
      match goal with
      | |- planned _ (push_step ?s _) =>
          replace Normal with (attribute_of s);
          [now apply planned_push
          | try reflexivity; apply attribute_by_width; reflexivity]
      end.
Qed.

Lemma planned_position (attrs : list Attribute) (p : Plan)
      (pos weighttype morphcount : Z) (through : bool) :
  planned attrs p -> (List.length attrs < MAX_STEPS)%nat ->
  planned (attrs ++ [Position])
          (plan_position pos weighttype morphcount through p).
Proof.
  intros Hp Hroom. unfold plan_position. cbv zeta.
  apply planned_set.
  match goal with
  | |- planned _ (push_step ?s _) =>
      replace Position with (attribute_of s); [now apply planned_push |]
  end.
  destruct through, (negb (weighttype =? 0)), (morphcount =? 1);
    apply attribute_by_width; reflexivity.
Qed.

(** The plan fills the step array with at most one step per attribute,
    in attribute order, the position last. *)
Lemma planned_plan (d : t) (fmt : Z) (options : VertexDecoderOptions)
      (cfg : PlanConfig) :
  List.length (steps_ d) = MAX_STEPS ->
  exists lw lt lc ln,
    slot_of Weights lw /\ slot_of Texcoord lt /\ slot_of Color lc /\
    slot_of Normal ln /\
    planned (lw ++ lt ++ lc ++ ln ++ [Position]) (plan d fmt options cfg).
Proof.
  intros Hlen. unfold plan. cbv zeta.
  set (p0 := {| p_steps := steps_ d; p_numSteps := 0;
                p_decFmt := cleared; p_decOff := 0 |}).
  assert (H0 : planned [] p0) by (repeat split; assumption).
  destruct (planned_weights [] p0 (Z.land (Z.shiftr fmt 9) 3) H0)
    as (lw & Hw & H1); [unfold MAX_STEPS; cbn; lia |].
  cbn [app] in H1.
  match type of H1 with planned _ ?p1 =>
    destruct (planned_texcoord lw p1 cfg (Z.land fmt 3)
                (Z.land (Z.shiftr fmt 18) 7 + 1)
                (negb (Z.land fmt GE_VTYPE_THROUGH =? 0)) H1)
      as (lt & Ht & H2)
  end.
  { destruct Hw as [-> | ->]; unfold MAX_STEPS; cbn; lia. }
  match type of H2 with planned _ ?p2 =>
    destruct (planned_color (lw ++ lt) p2 (Z.land (Z.shiftr fmt 2) 7)
                (Z.land (Z.shiftr fmt 18) 7 + 1) H2)
      as (lc & Hc & H3)
  end.
  { destruct Hw as [-> | ->], Ht as [-> | ->]; unfold MAX_STEPS; cbn; lia. }
  match type of H3 with planned _ ?p3 =>
    destruct (planned_normal ((lw ++ lt) ++ lc) p3 options
                (Z.land (Z.shiftr fmt 5) 3) (Z.land (Z.shiftr fmt 9) 3)
                (Z.land (Z.shiftr fmt 18) 7 + 1) H3)
      as (ln & Hn & H4)
  end.
  { destruct Hw as [-> | ->], Ht as [-> | ->], Hc as [-> | ->];
      unfold MAX_STEPS; cbn; lia. }
  exists lw, lt, lc, ln. repeat (split; [assumption |]).
  rewrite !app_assoc. apply planned_position; [exact H4 |].
  destruct Hw as [-> | ->], Ht as [-> | ->], Hc as [-> | ->],
    Hn as [-> | ->]; unfold MAX_STEPS; cbn; lia.
Qed.

End PlanFacts.

Lemma slots_distinct (lw lt lc ln : list Attribute) :
  VertexDecoder.slot_of Weights lw -> VertexDecoder.slot_of Texcoord lt ->
  VertexDecoder.slot_of Color lc -> VertexDecoder.slot_of Normal ln ->
  let l := lw ++ lt ++ lc ++ ln ++ [Position] in
  (1 <= List.length l <= 5)%nat /\ NoDup l.
Proof.
  intros [-> | ->] [-> | ->] [-> | ->] [-> | ->]; cbn; split; try lia;
    repeat (constructor; [cbn; intuition discriminate |]); constructor.
Qed.

Lemma SetVertexType_steps (d : VertexDecoder.t) (vtype : Z)
      (options : VertexDecoderOptions) (cfg : PlanConfig) :
  List.length (VertexDecoder.steps_ d) = VertexDecoder.MAX_STEPS ->
  let d' := VertexDecoder.SetVertexType d vtype options cfg in
  VertexDecoder.steps_ok d' /\
  1 <= VertexDecoder.numSteps_ d' /\
  List.length (VertexDecoder.pipeline d')
  = Z.to_nat (VertexDecoder.numSteps_ d').
Proof.
  intros Hlen d'.
  destruct (PlanFacts.planned_plan d vtype options cfg Hlen)
    as (lw & lt & lc & ln & Hw & Ht & Hc & Hn & Hlenp & Hnum & Hmap).
  destruct (slots_distinct lw lt lc ln Hw Ht Hc Hn) as [Hl Hnd].
  cbv zeta in Hl, Hnd.
  set (l := lw ++ lt ++ lc ++ ln ++ [Position]) in *.
  unfold VertexDecoder.steps_ok, VertexDecoder.pipeline, d',
    VertexDecoder.SetVertexType.
  cbn [VertexDecoder.steps_ VertexDecoder.numSteps_].
  rewrite Hnum, Nat2Z.id, Hmap.
  repeat split; try assumption; try lia.
  rewrite length_firstn, Hlenp. unfold VertexDecoder.MAX_STEPS. lia.
Qed.

Lemma steps_ok_apply (d : VertexDecoder.t) (op : VertexDecoder.Operation) :
  VertexDecoder.steps_ok d -> VertexDecoder.steps_ok (VertexDecoder.apply d op).
Proof.
  intros Hok. destruct op as [vtype options cfg | decoded ptr];
    cbn [VertexDecoder.apply].
  - apply SetVertexType_steps, Hok.
  - exact Hok.
Qed.

Lemma steps_ok_run (ops : list VertexDecoder.Operation) :
  forall d, VertexDecoder.steps_ok d ->
            VertexDecoder.steps_ok (VertexDecoder.run d ops).
Proof.
  unfold VertexDecoder.run.
  induction ops as [| op ops IH]; intros d Hok; cbn [fold_left].
  - exact Hok.
  - apply IH, steps_ok_apply, Hok.
Qed.

(** C6.  After [SetVertexType] the pipeline holds at most one step per
    logical attribute and its length [numSteps_] lies between 0 and 5;
    whatever operations follow on the decoder, further calls of
    [SetVertexType] and [const] member functions alike, this stays so. *)
Theorem pipeline_has_at_most_five_steps (d : VertexDecoder.t) (vtype : Z)
        (options : VertexDecoderOptions) (cfg : PlanConfig)
        (ops : list VertexDecoder.Operation) :
  List.length (VertexDecoder.steps_ d) = VertexDecoder.MAX_STEPS ->
  let d' := VertexDecoder.SetVertexType d vtype options cfg in
  0 <= VertexDecoder.numSteps_ d' <= 5 /\
  List.length (VertexDecoder.pipeline d')
  = Z.to_nat (VertexDecoder.numSteps_ d') /\
  NoDup (map attribute_of (VertexDecoder.pipeline d')) /\
  (let d'' := VertexDecoder.run d' ops in
   0 <= VertexDecoder.numSteps_ d'' <= 5 /\
   NoDup (map attribute_of (VertexDecoder.pipeline d''))).
Proof.
  intros Hlen d'.
  destruct (SetVertexType_steps d vtype options cfg Hlen)
    as (Hok & _ & Hpl).
  fold d' in Hok, Hpl.
  pose proof (steps_ok_run ops d' Hok) as (_ & Hb & Hnd).
  destruct Hok as (_ & Hb' & Hnd').
  repeat split; try assumption; lia.
Qed.

(** ** VertexDecoder: the decoded layout *)

(** C7 (as stated, refuted).  [RoundUp4] does not return a multiple of 4
    that is at least [x] for every [x >= 0]: at [INT_MAX] the addition
    wraps and the result is [INT_MIN]. *)
Lemma RoundUp4_wraps_at_INT_MAX :
  0 <= INT_MAX /\
  RoundUp4 INT_MAX = -2147483648 /\
  ~ (INT_MAX <= RoundUp4 INT_MAX).
Proof.
  assert (H : RoundUp4 INT_MAX = -2147483648) by (vm_compute; reflexivity).
  rewrite H. unfold INT_MAX. repeat split; lia.
Qed.

(** The layout a plan ends with is decided by which of the texture
    coordinate, the color and the normal are present and by the width the
    normal keeps. *)
Ltac layout_cases :=
  unfold VertexDecoder.SetVertexType, VertexDecoder.plan,
    VertexDecoder.plan_position, VertexDecoder.plan_normal,
    VertexDecoder.plan_color, VertexDecoder.plan_texcoord,
    VertexDecoder.plan_weights;
  cbv zeta; cbn [VertexDecoder.decFmt];
  repeat match goal with
         | |- context [VertexDecoder.finish_layout (if ?b then _ else _)] =>
             destruct b
         | |- context [VertexDecoder.set_pos _
                         (VertexDecoder.push_step _ (if ?b then _ else _))] =>
             destruct b
         | |- context [VertexDecoder.set_nrm _
                         (VertexDecoder.push_step _ (if ?b then _ else _))] =>
             destruct b
         | |- context [VertexDecoder.set_c0 _
                         (VertexDecoder.push_step _ (if ?b then _ else _))] =>
             destruct b
         | |- context [VertexDecoder.set_uv _
                         (VertexDecoder.push_step _ (if ?b then _ else _))] =>
             destruct b
         | |- context [VertexDecoder.push_step _
                         (VertexDecoder.push_step _ (if ?b then _ else _))] =>
             destruct b
         end.

(** C7 (amended).  In the layout [SetVertexType] plans, the byte ranges
    of the attributes that are present are non-empty, pairwise disjoint
    and inside [0, stride); the stride is a multiple of 4 that covers the
    sum of their sizes.  [RoundUp4 x] is the least multiple of 4 that is
    at least [x] for every [x] from 0 to [INT_MAX - 3]. *)
Theorem decoded_layout_ranges (d : VertexDecoder.t) (vtype : Z)
        (options : VertexDecoderOptions) (cfg : PlanConfig) (x : Z) :
  let f := VertexDecoder.decFmt
             (VertexDecoder.SetVertexType d vtype options cfg) in
  VertexDecoder.pairwise VertexDecoder.disjoint (VertexDecoder.ranges f) /\
  Forall (fun r => 0 <= fst r /\ 0 < snd r /\ fst r + snd r <= stride f)
         (VertexDecoder.ranges f) /\
  fold_right Z.add 0 (map snd (VertexDecoder.ranges f)) <= stride f /\
  stride f mod 4 = 0 /\
  (0 <= x <= INT_MAX - 3 ->
   RoundUp4 x mod 4 = 0 /\
   x <= RoundUp4 x /\
   (forall y, y mod 4 = 0 -> x <= y -> RoundUp4 x <= y)).
Proof.
  intros f.
  assert (Hlayout :
    VertexDecoder.pairwise VertexDecoder.disjoint (VertexDecoder.ranges f) /\
    Forall (fun r => 0 <= fst r /\ 0 < snd r /\ fst r + snd r <= stride f)
           (VertexDecoder.ranges f) /\
    fold_right Z.add 0 (map snd (VertexDecoder.ranges f)) <= stride f /\
    stride f mod 4 = 0).
  { subst f. layout_cases;
      vm_compute;
      repeat match goal with
             | |- _ /\ _ => split
             | |- Forall _ _ => constructor
             | |- _ \/ _ => left; congruence
             | |- _ = _ => reflexivity
             | |- _ -> False => discriminate
             | |- True => exact I
             end. }
  destruct Hlayout as (H1 & H2 & H3 & H4).
  repeat (split; [assumption |]).
  apply RoundUp4_least.
Qed.

(** * Instances

    Each theorem above that carries hypotheses is applied once to a
    concrete memory, reader or decoder. *)

Lemma convert_by_index_width_witness :
  IndexConverter.convert index_memory (IndexConverter.make 0 2) 2 = Some 2 /\
  IndexConverter.convert index_memory
    (IndexConverter.make GE_VTYPE_IDX_8BIT 2) 2 = Some 2 /\
  IndexConverter.convert index_memory
    (IndexConverter.make GE_VTYPE_IDX_16BIT 2) 2 = Some 9 /\
  IndexConverter.convert index_memory
    (IndexConverter.make GE_VTYPE_IDX_32BIT 2) 1 = Some 131081.
Proof.
  repeat match goal with |- _ /\ _ => split end.
  - apply (proj1 (convert_by_index_width index_memory 0 2 2)). reflexivity.
  - apply (proj2 (convert_by_index_width index_memory GE_VTYPE_IDX_8BIT 2 2)
             1%nat [5; 0; 2; 0; 9; 0; 2; 0]).
    + left. split; reflexivity.
    + exists [xaa; xbb], []. split; reflexivity.
    + repeat constructor; cbn; lia.
    + cbn. lia.
  - apply (proj2 (convert_by_index_width index_memory GE_VTYPE_IDX_16BIT 2 2)
             2%nat [5; 2; 9; 2]).
    + right. left. split; reflexivity.
    + exists [xaa; xbb], []. split; reflexivity.
    + repeat constructor; cbn; lia.
    + cbn. lia.
  - apply (proj2 (convert_by_index_width index_memory GE_VTYPE_IDX_32BIT 2 1)
             4%nat [131077; 131081]).
    + right. right. split; reflexivity.
    + exists [xaa; xbb], []. split; reflexivity.
    + repeat constructor; cbn; lia.
    + cbn. lia.
Defined.

Lemma convert_default_is_identity_witness :
  IndexConverter.convert index_memory
    {| IndexConverter.indices := 2; IndexConverter.indexType := 12345 |} 7
  = Some 7.
Proof.
  apply (convert_default_is_identity index_memory
           {| IndexConverter.indices := 2;
              IndexConverter.indexType := 12345 |} 7);
    cbn; discriminate.
Defined.

Lemma through_z_normalized_and_raw_witness :
  let r := VertexReader.make 0 (layout_example DEC_S16_3 0 0)
                             GE_VTYPE_THROUGH in
  result (VertexReader.ReadPos s16_position_memory r no_reports)
  = Some [F32.of_int 5; F32.of_int (-5); scaled 65535 65436] /\
  result (VertexReader.ReadPosThroughZ16 s16_position_memory r no_reports)
  = Some [F32.of_int 5; F32.of_int (-5); F32.of_int 65436].
Proof.
  intros r.
  pose proof (through_z_normalized_and_raw s16_position_memory r no_reports
                5 (-5) 65436 eq_refl eq_refl eq_refl eq_refl eq_refl) as H.
  cbv zeta in H. split; [apply H | apply (proj1 (proj2 (proj2 (proj2 H))))].
Defined.

Lemma through_z_clamping_witness :
  let rf := VertexReader.make 0 (layout_example DEC_FLOAT_3 0 0)
                              GE_VTYPE_THROUGH in
  let rs := VertexReader.make 0 (layout_example DEC_S16_3 0 0)
                              GE_VTYPE_THROUGH in
  result (VertexReader.ReadPos float_position_memory rf no_reports)
  = Some [F32.of_int 1; F32.of_int 1; F32.zero] /\
  result (VertexReader.ReadPos float_position_memory_70000 rf no_reports)
  = Some [F32.of_int 1; F32.of_int 1; F32.of_int 1] /\
  result (VertexReader.ReadPosThroughZ16 float_position_memory_70000 rf
                                         no_reports)
  = Some [F32.of_int 1; F32.of_int 1; F32.of_int 65535] /\
  result (VertexReader.ReadPosThroughZ16 s16_position_memory rs no_reports)
  = Some [F32.of_int 5; F32.of_int (-5); F32.of_int 65436].
Proof.
  intros rf rs.
  pose proof (proj1 (through_z_clamping float_position_memory rf no_reports
                       eq_refl)
                (F32.of_int 1) (F32.of_int 1) eq_refl eq_refl eq_refl)
    as [Hneg _].
  pose proof (proj1 (through_z_clamping float_position_memory_70000 rf
                       no_reports eq_refl)
                (F32.of_int 1) (F32.of_int 1) eq_refl eq_refl eq_refl)
    as [_ Hbig].
  pose proof (proj2 (through_z_clamping s16_position_memory rs no_reports
                       eq_refl)
                5 (-5) eq_refl eq_refl eq_refl eq_refl) as [_ Hs16].
  repeat match goal with |- _ /\ _ => split end.
  - exact (proj1 (Hneg eq_refl)).
  - exact (proj1 (Hbig eq_refl)).
  - exact (proj2 (Hbig eq_refl)).
  - exact Hs16.
Defined.

(** A vertex whose normal format is one past the last defined tag; the
    position is a signed 16-bit triplet. *)
Lemma unsupported_format_is_absorbed_witness :
  let r := VertexReader.make 0 (layout_example DEC_S16_3 15 0) 0 in
  let m := s16_position_memory in
  result (VertexReader.ReadNrm m r no_reports)
  = Some [F32.zero; F32.zero; F32.zero] /\
  (forall outs st',
      calls m [CallReadNrm; CallReadPos; CallReadNrm] r no_reports
      = Some (outs, st') ->
      (raised "fmtnrm" 15 st' <= 1)%nat) /\
  result (calls m [CallReadNrm; CallReadPos] r no_reports)
  = option_map (cons [F32.zero; F32.zero; F32.zero])
               (result (calls m [CallReadPos] r no_reports)).
Proof.
  intros r m.
  pose proof (unsupported_format_is_absorbed m r no_reports) as H.
  cbv zeta in H.
  destruct H as (Hnrm & _ & _ & _ & _ & Honce & Hnext).
  split; [| split].
  - exact (Hnrm eq_refl).
  - intros outs st' Hrun.
    exact (Honce _ outs st' reports_once_initial Hrun "fmtnrm"%string 15).
  - exact (Hnext CallReadNrm [CallReadPos] eq_refl).
Defined.

Lemma pipeline_has_at_most_five_steps_witness :
  let d' := VertexDecoder.SetVertexType fresh_decoder full_vtype
              plain_options plain_config in
  0 <= VertexDecoder.numSteps_ d' <= 5 /\
  NoDup (map attribute_of (VertexDecoder.pipeline d')).
Proof.
  intros d'.
  pose proof (pipeline_has_at_most_five_steps fresh_decoder full_vtype
                plain_options plain_config [] eq_refl) as H.
  cbv zeta in H. destruct H as (Hb & _ & Hnd & _). split; assumption.
Defined.

Lemma decoded_layout_ranges_witness :
  RoundUp4 5 mod 4 = 0 /\ 5 <= RoundUp4 5.
Proof.
  pose proof (proj2 (proj2 (proj2 (proj2
                (decoded_layout_ranges fresh_decoder full_vtype
                   plain_options plain_config 5))))) as H.
  assert (Hx : 0 <= 5 <= INT_MAX - 3) by (unfold INT_MAX; lia).
  split; apply (H Hx).
Defined.

Lemma color1_reads_three_components_witness :
  let r := VertexReader.make 0 (layout_example 0 0 DEC_U8_4) 0 in
  let rf := VertexReader.make 0 (layout_example 0 0 DEC_FLOAT_4) 0 in
  result (VertexReader.ReadColor1 color1_memory r no_reports)
  = Some [scaled 255 255; scaled 255 128; scaled 255 0] /\
  result (VertexReader.ReadColor1 color1_float_memory rf no_reports)
  = Some [F32.of_int 1; F32.of_int 1; F32.of_int (-100)].
Proof.
  intros r rf. split.
  - apply (proj1 (proj2 (color1_reads_three_components color1_memory r
                           no_reports 255 128 0))).
    + reflexivity.
    + exists (repeat x00 8), []. split; reflexivity.
    + repeat constructor; cbn; lia.
  - apply (proj2 (proj2 (color1_reads_three_components color1_float_memory rf
                           no_reports 1065353216 1065353216 3267887104))).
    + reflexivity.
    + exists (repeat x00 8), []. split; reflexivity.
    + repeat constructor; cbn; lia.
Defined.

Lemma normal_and_position_divisors_witness :
  let r := VertexReader.make 0 (layout_example DEC_S8_3 DEC_S8_3 0) 0 in
  let r16 := VertexReader.make 0 (layout_example DEC_S16_3 DEC_S16_3 0) 0 in
  result (VertexReader.ReadNrm s8_memory r no_reports)
  = Some [F32.of_int 1; scaled 127 (-128); scaled 127 1] /\
  result (VertexReader.ReadPos s8_memory r no_reports)
  = Some [scaled 128 127; scaled 128 (-128); scaled 128 1] /\
  result (VertexReader.ReadNrm s16_position_memory r16 no_reports)
  = Some [scaled 32767 5; scaled 32767 (-5); scaled 32767 (-100)] /\
  result (VertexReader.ReadPos s16_position_memory r16 no_reports)
  = Some [scaled 32768 5; scaled 32768 (-5); scaled 32768 (-100)].
Proof.
  intros r r16.
  pose proof (normal_and_position_divisors s8_memory r no_reports
                127 (-128) 1) as H.
  pose proof (normal_and_position_divisors s16_position_memory r16 no_reports
                5 (-5) (-100)) as H16.
  cbv zeta in H, H16.
  destruct H as (Hn & _ & H1 & _ & Hp & _).
  destruct H16 as (_ & Hn16 & _ & _ & _ & Hp16).
  repeat match goal with |- _ /\ _ => split end.
  - rewrite <- H1. apply Hn; reflexivity.
  - apply Hp; reflexivity.
  - apply Hn16; reflexivity.
  - apply Hp16; reflexivity.
Defined.

(** * Further properties *)

(** ** [RoundUp4] over the whole of [int] *)

Lemma RoundUp4_eq_int (x : Z) :
  - 2147483648 <= x <= INT_MAX - 3 -> RoundUp4 x = 4 * ((x + 3) / 4).
Proof.
  intros Hx. unfold RoundUp4.
  rewrite int_wrap_small by (unfold INT_MAX in *; lia).
  apply land_lnot_3.
Qed.

(** X1.  For every [int] up to [INT_MAX - 3], negative ones included,
    [RoundUp4] returns a multiple of 4 between [x] and [x + 3]; it leaves
    multiples of 4 alone, applying it twice is applying it once, and it
    is monotone. *)
Theorem RoundUp4_rounds_up (x y : Z) :
  - 2147483648 <= x <= INT_MAX - 3 ->
  - 2147483648 <= y <= INT_MAX - 3 ->
  x <= RoundUp4 x <= x + 3 /\
  RoundUp4 x mod 4 = 0 /\
  (x mod 4 = 0 -> RoundUp4 x = x) /\
  RoundUp4 (RoundUp4 x) = RoundUp4 x /\
  (x <= y -> RoundUp4 x <= RoundUp4 y).
Proof.
  intros Hx Hy. unfold INT_MAX in *.
  pose proof (Z.div_mod (x + 3) 4 ltac:(lia)) as Hd.
  pose proof (Z.mod_pos_bound (x + 3) 4 ltac:(lia)) as Hb.
  pose proof (Z.div_mod x 4 ltac:(lia)) as Hdx.
  pose proof (Z.mod_pos_bound x 4 ltac:(lia)) as Hbx.
  assert (Hr : RoundUp4 x = 4 * ((x + 3) / 4))
    by (apply RoundUp4_eq_int; unfold INT_MAX; lia).
  assert (Hm : RoundUp4 x mod 4 = 0).
  { rewrite Hr, Z.mul_comm. apply Z.mod_mul. lia. }
  repeat match goal with |- _ /\ _ => split end.
  - lia.
  - lia.
  - exact Hm.
  - intros H0. rewrite Hr.
    assert ((x + 3) / 4 = x / 4); [| lia].
    symmetry. apply Z.div_unique with (r := 3); lia.
  - rewrite (RoundUp4_eq_int (RoundUp4 x)) by (unfold INT_MAX; lia).
    rewrite Hr.
    assert ((4 * ((x + 3) / 4) + 3) / 4 = (x + 3) / 4); [| lia].
    symmetry. apply Z.div_unique with (r := 3); lia.
  - intros Hxy. rewrite Hr, (RoundUp4_eq_int y) by (unfold INT_MAX; lia).
    assert ((x + 3) / 4 <= (y + 3) / 4); [| lia].
    apply Z.div_le_mono; lia.
Qed.

Lemma RoundUp4_rounds_up_witness :
  RoundUp4 (-5) = -4 /\ RoundUp4 (RoundUp4 13) = 16.
Proof.
  assert (Hm : - 2147483648 <= -5 <= INT_MAX - 3) by (unfold INT_MAX; lia).
  assert (Hp : - 2147483648 <= 13 <= INT_MAX - 3) by (unfold INT_MAX; lia).
  pose proof (RoundUp4_rounds_up (-5) 13 Hm Hp) as (Hb & Hmod & _).
  pose proof (RoundUp4_rounds_up 13 13 Hp Hp) as (_ & _ & _ & Hi & _).
  split.
  - assert (H : RoundUp4 (-5) = -4) by reflexivity. exact H.
  - rewrite Hi. reflexivity.
Defined.

(** ** The index type of a constructed converter *)

Lemma load_u32_range (m : Memory) (a v : Z) :
  load_u32 m a = Some v -> 0 <= v < 4294967296.
Proof.
  unfold load_u32.
  destruct (load_bytes m a 4) as [bs |] eqn:E; [| discriminate].
  intros H. inversion H; subst. apply load_bytes_length in E.
  pose proof (le_value_range bs) as Hr. rewrite E in Hr. exact Hr.
Qed.

Lemma load_bytes_nil (a : Z) (n : nat) :
  (0 < n)%nat -> load_bytes [] a n = None.
Proof.
  intros Hn. unfold load_bytes. cbn [List.length].
  destruct (Z.leb_spec 0 a); cbn [andb]; [| reflexivity].
  destruct (Z.leb_spec (a + Z.of_nat n) (Z.of_nat 0)); [lia | reflexivity].
Qed.

Lemma land_index_mask (v : Z) :
  Z.land v GE_VTYPE_IDX_MASK = Z.shiftl (Z.shiftr v 11 mod 4) 11.
Proof.
  unfold GE_VTYPE_IDX_MASK.
  change 4 with (2 ^ 2). rewrite <- Z.land_ones by lia.
  change (Z.ones 2) with 3.
  rewrite Z.shiftl_land, <- Z.ldiff_ones_r, Z.ldiff_land by lia.
  rewrite <- Z.land_assoc. f_equal.
Qed.

(** X2.  The constructor leaves one of the four index types in the
    converter, whatever the other bits of the vertex type are.  [convert]
    is the identity on every memory exactly when that type is "none";
    otherwise what it returns was loaded at the index width and is below
    256, 65536 or 2^32. *)
Theorem constructed_index_type (vertType indices i : Z) :
  let c := IndexConverter.make vertType indices in
  In (IndexConverter.indexType c)
     [GE_VTYPE_IDX_NONE; GE_VTYPE_IDX_8BIT; GE_VTYPE_IDX_16BIT;
      GE_VTYPE_IDX_32BIT] /\
  ((forall m, IndexConverter.convert m c i = Some i) <->
   IndexConverter.indexType c = GE_VTYPE_IDX_NONE) /\
  (forall m v,
      IndexConverter.convert m c i = Some v ->
      (IndexConverter.indexType c = GE_VTYPE_IDX_8BIT -> 0 <= v < 256) /\
      (IndexConverter.indexType c = GE_VTYPE_IDX_16BIT -> 0 <= v < 65536) /\
      (IndexConverter.indexType c = GE_VTYPE_IDX_32BIT ->
       0 <= v < 4294967296)).
Proof.
  intros c.
  assert (Hin : In (IndexConverter.indexType c)
                   [GE_VTYPE_IDX_NONE; GE_VTYPE_IDX_8BIT; GE_VTYPE_IDX_16BIT;
                    GE_VTYPE_IDX_32BIT]).
  { unfold c, IndexConverter.make. cbn [IndexConverter.indexType].
    rewrite land_index_mask.
    pose proof (Z.mod_pos_bound (Z.shiftr vertType 11) 4 ltac:(lia)) as Hb.
    assert (Hc : Z.shiftr vertType 11 mod 4 = 0
                 \/ Z.shiftr vertType 11 mod 4 = 1
                 \/ Z.shiftr vertType 11 mod 4 = 2
                 \/ Z.shiftr vertType 11 mod 4 = 3) by lia.
    destruct Hc as [-> | [-> | [-> | ->]]]; cbn; auto. }
  split; [exact Hin |]. split.
  - split.
    + intros Hall. specialize (Hall []).
      unfold IndexConverter.convert, load_u8, load_u16, load_u32 in Hall.
      rewrite !load_bytes_nil in Hall by lia.
      destruct Hin as [H | [H | [H | [H | []]]]]; symmetry in H;
        [exact H | rewrite H in Hall; cbn in Hall; discriminate Hall ..].
    + intros Hnone m. unfold IndexConverter.convert. rewrite Hnone.
      reflexivity.
  - intros m v Hv. unfold IndexConverter.convert in Hv.
    split; [| split]; intros Ht; rewrite Ht in Hv; cbn in Hv.
    + eapply load_u8_range; eassumption.
    + eapply load_u16_range; eassumption.
    + eapply load_u32_range; eassumption.
Qed.

Lemma constructed_index_type_witness :
  IndexConverter.convert index_memory
    (IndexConverter.make (GE_VTYPE_THROUGH + 7) 2) 3 = Some 3.
Proof.
  apply (proj2 (proj1 (proj2 (constructed_index_type
                                (GE_VTYPE_THROUGH + 7) 2 3)))).
  reflexivity.
Defined.

(** ** Reads and the report state *)

Lemma steady_result {A : Type} (c : Eff A) (st st' : Reporting) :
  steady c -> result (c st) = result (c st').
Proof. intros [o Ho]. now rewrite (Ho st), (Ho st'). Qed.

Lemma read_steady (m : Memory) (c : Call) (r : VertexReader.t) :
  steady (read m c r).
Proof.
  destruct (call_steady m c r) as [o Ho].
  exists (option_map snd o). intros st. specialize (Ho st).
  destruct c; cbn [call read] in *;
    try (unfold bind, ret, result in *;
         match goal with
         | |- context [?P m r st] => destruct (P m r st) as [[out s1] |]
         end;
         cbn in *; subst; reflexivity).
  unfold ret, result in *. cbn in *. now subst.
Qed.

(** X3.  Outside through mode the two position readers return the same
    position, for every format and every memory; they differ only in the
    name of the report an unsupported format spends. *)
Theorem position_readers_agree_outside_through (m : Memory)
        (r : VertexReader.t) (st st' : Reporting) :
  VertexReader.isThrough r = false ->
  result (VertexReader.ReadPos m r st)
  = result (VertexReader.ReadPosThroughZ16 m r st').
Proof.
  intros Hthr.
  rewrite (steady_result (VertexReader.ReadPosThroughZ16 m r) st' st)
    by apply (read_steady m CallReadPosThroughZ16 r).
  unfold VertexReader.ReadPos, VertexReader.ReadPosThroughZ16.
  rewrite Hthr. cbv zeta.
  destruct (posfmt (VertexReader.decFmt_ r) =? DEC_FLOAT_3); [reflexivity |].
  destruct (posfmt (VertexReader.decFmt_ r) =? DEC_S16_3); [reflexivity |].
  destruct (posfmt (VertexReader.decFmt_ r) =? DEC_S8_3); [reflexivity |].
  unfold bind, ret, result, ERROR_LOG_REPORT_ONCE.
  destruct (existsb (String.eqb "fmtpos") (reported st)),
    (existsb (String.eqb "fmtz16") (reported st)); reflexivity.
Qed.

Lemma position_readers_agree_outside_through_witness :
  let r := VertexReader.make 0 (layout_example DEC_S16_3 0 0) 0 in
  result (VertexReader.ReadPosThroughZ16 s16_position_memory r no_reports)
  = Some [scaled 32768 5; scaled 32768 (-5); scaled 32768 (-100)].
Proof.
  intros r.
  rewrite <- (position_readers_agree_outside_through s16_position_memory r
                no_reports no_reports eq_refl).
  reflexivity.
Defined.

Lemma call_keeps_format (m : Memory) (c : Call) (r r' : VertexReader.t)
      (out : list float) (st st' : Reporting) :
  call m c r st = Some ((r', out), st') ->
  VertexReader.decFmt_ r' = VertexReader.decFmt_ r.
Proof.
  destruct c; cbn [call]; unfold bind, ret;
    try (match goal with
         | |- context [?P m r st] => destruct (P m r st) as [[o s1] |]
         end; [| discriminate]);
    intros H; inversion H; reflexivity.
Qed.

(** X4.  A sequence of calls in which every read finds a case for its
    format raises no diagnostic and spends no report: the report state
    after it is the one before it. *)
Theorem supported_calls_are_silent (m : Memory) (cs : list Call) :
  forall (r : VertexReader.t) (st st' : Reporting)
         (outs : list (list float)),
    Forall (fun c => supported c (VertexReader.decFmt_ r) = true) cs ->
    calls m cs r st = Some (outs, st') ->
    st' = st.
Proof.
  induction cs as [| c cs IH]; intros r st st' outs Hall Hrun.
  - cbn in Hrun. now inversion Hrun.
  - apply Forall_cons_iff in Hall as [Hc Hcs].
    cbn [calls] in Hrun. unfold bind at 1 in Hrun.
    destruct (call_cases m c r) as [[_ [o Ho]] | [Hu _]]; [| congruence].
    destruct (call m c r st) as [[[r1 out] s1] |] eqn:E; [| discriminate].
    pose proof (call_keeps_format _ _ _ _ _ _ _ E) as Hfmt.
    rewrite Ho in E. destruct o as [ro |]; [| discriminate].
    inversion E; subst; clear E.
    unfold bind, ret in Hrun. cbn [fst snd] in Hrun.
    destruct (calls m cs r1 s1) as [[outs1 s2] |] eqn:E2; [| discriminate].
    inversion Hrun; subst; clear Hrun.
    eapply IH; [| exact E2]. now rewrite Hfmt.
Qed.

Lemma supported_calls_are_silent_witness :
  let r := VertexReader.make 0 (layout_example DEC_S16_3 DEC_S8_3 0) 0 in
  option_map snd
    (calls s16_position_memory [CallReadPos; CallGoto 0; CallReadNrm] r
           no_reports)
  = Some no_reports.
Proof.
  intros r.
  destruct (calls s16_position_memory [CallReadPos; CallGoto 0; CallReadNrm]
                  r no_reports) as [[outs st'] |] eqn:E.
  - cbn [option_map snd]. f_equal.
    apply (supported_calls_are_silent s16_position_memory
             [CallReadPos; CallGoto 0; CallReadNrm] r no_reports st' outs);
      [repeat constructor | exact E].
  - vm_compute in E. discriminate E.
Defined.

(** ** The bytes a read touches *)

Lemma load_in_block (m : Memory) (a : Z) (n : nat) (bs : list byte)
      (i : Z) (k : nat) :
  load_bytes m a n = Some bs ->
  0 <= i -> (Z.to_nat i + k <= n)%nat ->
  load_bytes m (a + i) k = Some (firstn k (skipn (Z.to_nat i) bs)).
Proof.
  unfold load_bytes. intros H Hi Hk.
  destruct (Z.leb_spec 0 a) as [Ha |]; cbn [andb] in H; [| discriminate].
  destruct (Z.leb_spec (a + Z.of_nat n) (Z.of_nat (List.length m)))
    as [Hn |]; [| discriminate].
  inversion H; subst; clear H.
  destruct (Z.leb_spec 0 (a + i)); [| lia]. cbn [andb].
  destruct (Z.leb_spec (a + i + Z.of_nat k) (Z.of_nat (List.length m)));
    [| lia].
  f_equal. rewrite skipn_firstn_comm, firstn_firstn, skipn_skipn.
  rewrite Z2Nat.inj_add by lia.
  rewrite Nat.min_l by lia. now rewrite Nat.add_comm.
Qed.

Lemma load_outside_block (m : Memory) (a : Z) (n : nat) (off : Z) (k : nat) :
  load_bytes m a n = None ->
  0 <= off -> (Z.to_nat off + k = n)%nat ->
  load_bytes m (a + 0) k = None \/ load_bytes m (a + off) k = None.
Proof.
  unfold load_bytes. intros H Hoff Hk. rewrite Z.add_0_r.
  destruct (Z.leb_spec 0 a) as [Ha | Ha]; cbn [andb] in *.
  - right.
    destruct (Z.leb_spec (a + Z.of_nat n) (Z.of_nat (List.length m)));
      [discriminate |].
    destruct (Z.leb_spec 0 (a + off)); [| reflexivity]. cbn [andb].
    destruct (Z.leb_spec (a + off + Z.of_nat k) (Z.of_nat (List.length m)));
      [lia | reflexivity].
  - left. reflexivity.
Qed.

Ltac unroll_read :=
  unfold read, VertexReader.ReadPos, VertexReader.ReadPosThroughZ16,
    VertexReader.ReadNrm, VertexReader.ReadUV, VertexReader.ReadColor0,
    VertexReader.ReadColor1, VertexReader.lit;
  cbv zeta.

Ltac unroll_loads :=
  unfold memcpy_floats; unfold for_i; cbn [for_from];
  cbn [Z.add Z.mul Pos.add Pos.mul Pos.succ Pos.add_carry];
  unfold bind, lift, ret, result, load_float, load_s16, load_s8, load_u32,
    load_u16, load_u8.

(** Both memories hold the block: every element load is a slice of it. *)
Ltac loads_from_block E E' :=
  match type of E with
  | load_bytes ?m ?a ?n = Some ?bs =>
      repeat match goal with
             | |- context [load_bytes m (a + ?off) ?k] =>
                 rewrite (load_in_block m a n bs off k E) by (cbn; lia)
             end
  end;
  match type of E' with
  | load_bytes ?m ?a ?n = Some ?bs =>
      repeat match goal with
             | |- context [load_bytes m (a + ?off) ?k] =>
                 rewrite (load_in_block m a n bs off k E') by (cbn; lia)
             end
  end.

(** A memory lacks the block: the first or the last element load fails,
    and with it the read. *)
Ltac load_fails E off k :=
  match type of E with
  | load_bytes ?m ?a ?n = None =>
      let H := fresh "H" in
      destruct (load_outside_block m a n off k E ltac:(lia) eq_refl)
        as [H | H];
      rewrite H;
      repeat match goal with
             | |- context [load_bytes m ?x ?y] => destruct (load_bytes m x y)
             end;
      cbn [option_map fst]
  end.

Ltac footprint_case off k :=
  match goal with
  | Hb : load_bytes ?m ?a ?n = load_bytes ?m' ?a' ?n |- _ =>
      let E := fresh "E" in
      destruct (load_bytes m a n) as [bs |] eqn:E; symmetry in Hb;
      unroll_loads;
      [ loads_from_block E Hb; reflexivity
      | load_fails E off k; load_fails Hb off k; reflexivity ]
  end.

(** X5.  What a read returns is decided by the format, the through flag
    and the bytes of its footprint at the attribute's address: two
    readers with the same format and flag, on memories that hold the same
    bytes there (or both lack them), return the same, wherever the
    vertices lie and whatever else the memories and the report states
    hold.  The footprint is 12, 6 or 3 bytes for a position or a normal,
    8, 4 or 2 for a texture coordinate, 16 or 4 for the first color and
    12 or 3 for the second. *)
Theorem read_footprint (c : Call) (m m' : Memory) (r r' : VertexReader.t)
        (st st' : Reporting) :
  let f := VertexReader.decFmt_ r in
  VertexReader.decFmt_ r' = f ->
  VertexReader.isThrough r' = VertexReader.isThrough r ->
  load_bytes m (VertexReader.data_ r + attribute_offset c f) (footprint c f)
  = load_bytes m' (VertexReader.data_ r' + attribute_offset c f)
               (footprint c f) ->
  result (read m c r st) = result (read m' c r' st').
Proof.
  intros f Hf Ht Hb. subst f.
  rewrite (steady_result (read m' c r') st' st) by apply read_steady.
  destruct c; cbn [attribute_offset footprint] in Hb; unroll_read;
    rewrite ?Hf, ?Ht;
    repeat match goal with
           | |- context [if ?x =? ?y then _ else _] => destruct (x =? y)
           end;
    try destruct (VertexReader.isThrough r);
    try reflexivity;
    first [ footprint_case 8 4%nat | footprint_case 4 2%nat
          | footprint_case 2 1%nat | footprint_case 1 1%nat
          | footprint_case 2 2%nat | footprint_case 4 4%nat
          | footprint_case 3 1%nat | footprint_case 12 4%nat ].
Qed.

Lemma read_footprint_witness :
  let r := VertexReader.make 0 (layout_example 0 0 DEC_U8_4) 0 in
  let r' := VertexReader.make 2 (layout_example 0 0 DEC_U8_4) 0 in
  result (VertexReader.ReadColor1 color1_shifted_memory r' no_reports)
  = Some [scaled 255 255; scaled 255 128; scaled 255 0].
Proof.
  intros r r'.
  pose proof (read_footprint CallReadColor1 color1_memory
                color1_shifted_memory r r' no_reports no_reports
                eq_refl eq_refl eq_refl) as H.
  cbn [read] in H. rewrite <- H. reflexivity.
Defined.

(** ** [Goto] on a buffer of decoded vertices *)

Lemma load_whole (l : list byte) :
  load_bytes l 0 (List.length l) = Some l.
Proof.
  pose proof (load_bytes_app [] l []) as H.
  cbn [app List.length] in H. now rewrite app_nil_r in H.
Qed.

Lemma vertices_at_record (m : Memory) (base : Z) (size : nat)
      (recs : list (list byte)) (k : nat) :
  vertices_at m base size recs ->
  (k < List.length recs)%nat ->
  load_bytes m (base + Z.of_nat k * Z.of_nat size) size
  = Some (nth k recs []).
Proof.
  intros (Hsize & pre & post & -> & ->) Hk.
  revert pre k Hk. induction recs as [| rec recs IH]; intros pre k Hk.
  - cbn in Hk. lia.
  - apply Forall_cons_iff in Hsize as [Hrec Hrest].
    destruct k as [| k]; cbn [List.concat nth].
    + rewrite Z.mul_0_l, Z.add_0_r, <- app_assoc.
      rewrite <- Hrec. apply load_bytes_app.
    + cbn in Hk. rewrite <- app_assoc, (app_assoc pre).
      replace (Z.of_nat (List.length pre) + Z.of_nat (S k) * Z.of_nat size)
        with (Z.of_nat (List.length (pre ++ rec)) + Z.of_nat k * Z.of_nat size)
        by (rewrite length_app, Hrec; lia).
      apply IH; [exact Hrest | lia].
Qed.

(** X6.  On a buffer of decoded vertices of [stride] bytes each, a read
    after [Goto(k)] returns what the same read returns on the [k]-th
    record taken alone as the whole memory, provided the attribute's
    footprint lies inside a record and [k * stride] fits an [int]: no
    read sees a byte of another vertex. *)
Theorem goto_reads_one_vertex (m : Memory) (r : VertexReader.t)
        (recs : list (list byte)) (size : nat) (k : Z) (c : Call)
        (st st' : Reporting) :
  let f := VertexReader.decFmt_ r in
  stride f = Z.of_nat size ->
  vertices_at m (VertexReader.base_ r) size recs ->
  0 <= k < Z.of_nat (List.length recs) ->
  k * stride f <= INT_MAX ->
  0 <= attribute_offset c f ->
  (Z.to_nat (attribute_offset c f) + footprint c f <= size)%nat ->
  result (read m c (VertexReader.Goto r k) st)
  = result (read (nth (Z.to_nat k) recs [])
                 c (VertexReader.make 0 f (VertexReader.vtype_ r)) st').
Proof.
  intros f Hstride Hbuf Hk Hfit Hoff Hin.
  pose proof Hbuf as (Hsize & _).
  assert (Hlen : List.length (nth (Z.to_nat k) recs []) = size).
  { rewrite Forall_forall in Hsize. apply Hsize, nth_In. lia. }
  apply read_footprint; [reflexivity | reflexivity |].
  cbn [VertexReader.Goto VertexReader.make VertexReader.data_
       VertexReader.decFmt_].
  fold f. rewrite Hstride in *.
  rewrite int_wrap_small by (unfold INT_MAX in *; nia).
  rewrite (load_in_block m (VertexReader.base_ r + k * Z.of_nat size) size
             (nth (Z.to_nat k) recs []) (attribute_offset c f)
             (footprint c f)); [| | exact Hoff | exact Hin].
  - symmetry. apply (load_in_block _ 0 size); [| exact Hoff | exact Hin].
    rewrite <- Hlen at 1. apply load_whole.
  - rewrite <- (Z2Nat.id k) at 1 by lia.
    apply vertices_at_record; [exact Hbuf | lia].
Qed.

Lemma goto_reads_one_vertex_witness :
  let r := VertexReader.make 2 (layout_example DEC_S16_3 0 0) 0 in
  result (VertexReader.ReadPos two_vertices (VertexReader.Goto r 1)
                               no_reports)
  = Some [scaled 32768 5; scaled 32768 (-5); scaled 32768 (-100)].
Proof.
  intros r.
  assert (Hbuf : vertices_at two_vertices (VertexReader.base_ r) 12
                   [repeat x11 12; s16_position_memory]).
  { split; [repeat constructor |].
    exists [xaa; xbb], [xcc]. split; reflexivity. }
  assert (Hmax : 1 * stride (VertexReader.decFmt_ r) <= INT_MAX)
    by (unfold INT_MAX; cbn; lia).
  pose proof (goto_reads_one_vertex two_vertices r
                [repeat x11 12; s16_position_memory] 12 1 CallReadPos
                no_reports no_reports eq_refl Hbuf
                ltac:(cbn; lia) Hmax ltac:(cbn; lia) ltac:(cbn; lia)) as H.
  cbn [read] in H. rewrite H. reflexivity.
Defined.

(** ** More exhaustive checks *)

Lemma scaled_recip (d v : Z) : scaled d v = scaled_by (recip d) v.
Proof. reflexivity. Qed.

Lemma recip_65535 : recip 65535 = S754_finite false 8388736 (-39).
Proof. reflexivity. Qed.

Lemma recip_32768 : recip 32768 = S754_finite false 8388608 (-38).
Proof. reflexivity. Qed.

Lemma recip_32767 : recip 32767 = S754_finite false 8388864 (-38).
Proof. reflexivity. Qed.

Lemma unsigned16_all (z : Z) :
  0 <= z < 65536 ->
  clamp_inert (recip 65535) z && increasing (recip 65535) 65535 z
  && uv_ok (recip 32768) 32768 z = true.
Proof.
  intros Hz.
  apply (all_from_spec
           (fun z => clamp_inert (recip 65535) z
                     && increasing (recip 65535) 65535 z
                     && uv_ok (recip 32768) 32768 z)
           (Z.to_nat 65536) 0); [| lia].
  rewrite recip_65535, recip_32768. vm_compute. reflexivity.
Qed.

Lemma signed16_all (s : Z) :
  -32768 <= s < 32768 ->
  pos_ok (recip 32768) 32768 s && nrm_ok (recip 32767) 32767 s
  && increasing (recip 32767) 32767 s = true.
Proof.
  intros Hs.
  apply (all_from_spec
           (fun s => pos_ok (recip 32768) 32768 s
                     && nrm_ok (recip 32767) 32767 s
                     && increasing (recip 32767) 32767 s)
           (Z.to_nat 65536) (-32768)); [| lia].
  rewrite recip_32768, recip_32767. vm_compute. reflexivity.
Qed.

Lemma unsigned8_all (b : Z) :
  0 <= b < 256 ->
  uv_ok (recip 128) 128 b && color_ok (recip 255) b
  && through_z8_ok (recip 255) b = true.
Proof.
  intros Hb.
  apply (all_from_spec
           (fun b => uv_ok (recip 128) 128 b && color_ok (recip 255) b
                     && through_z8_ok (recip 255) b)
           (Z.to_nat 256) 0); [| lia].
  vm_compute. reflexivity.
Qed.

Lemma signed8_all (b : Z) :
  -128 <= b < 128 ->
  pos_ok (recip 128) 128 b && nrm_ok (recip 127) 127 b
  && increasing (recip 127) 127 b = true.
Proof.
  intros Hb.
  apply (all_from_spec
           (fun b => pos_ok (recip 128) 128 b && nrm_ok (recip 127) 127 b
                     && increasing (recip 127) 127 b)
           (Z.to_nat 256) (-128)); [| lia].
  vm_compute. reflexivity.
Qed.

(** ** Through-mode Z in the other formats *)

Ltac split_checks H :=
  repeat match type of H with
         | _ && _ = true =>
             let H' := fresh "Hck" in
             apply andb_true_iff in H as [H H']
         end.

(** X7.  In through mode a float position whose Z casts to an integer
    [n] from 0 to 65535 is read like the signed 16-bit format with
    unsigned Z [n]: [ReadPos] returns [n * (1 / 65535)] and
    [ReadPosThroughZ16] returns [n], the clamps leaving both alone; a
    fraction of the stored Z is dropped by the cast.  Normalized Z is
    strictly increasing in [n]. *)
Theorem float_through_z_in_range (m : Memory) (r : VertexReader.t)
        (st : Reporting) (fx fy fz : float) (n : Z) :
  let a := VertexReader.data_ r + posoff (VertexReader.decFmt_ r) in
  posfmt (VertexReader.decFmt_ r) = DEC_FLOAT_3 ->
  VertexReader.isThrough r = true ->
  load_float m a = Some fx ->
  load_float m (a + 4) = Some fy ->
  load_float m (a + 8) = Some fz ->
  F32.to_int fz = Some n ->
  0 <= n <= 65535 ->
  result (VertexReader.ReadPos m r st) = Some [fx; fy; scaled 65535 n] /\
  result (VertexReader.ReadPosThroughZ16 m r st)
  = Some [fx; fy; F32.of_int n] /\
  (n < 65535 -> F32.ltb (scaled 65535 n) (scaled 65535 (n + 1)) = true).
Proof.
  intros a Hfmt Hthr Hx Hy Hz Hn Hr. subst a.
  pose proof (unsigned16_all n ltac:(lia)) as Hok.
  split_checks Hok. unfold clamp_inert in Hok. cbv zeta in Hok.
  split_checks Hok.
  rewrite <- scaled_recip in *.
  repeat match goal with
         | H : negb _ = true |- _ => apply negb_true_iff in H
         end.
  unfold VertexReader.ReadPos, VertexReader.ReadPosThroughZ16,
    VertexReader.lit.
  rewrite Hfmt, Hthr. change (DEC_FLOAT_3 =? DEC_FLOAT_3) with true.
  cbv iota. run_read. cbn [nth]. rewrite Hn. cbn [option_map fst array_set].
  fold (scaled 65535 n).
  repeat match goal with
         | H : ?b = false |- context [if ?b then _ else _] => rewrite H
         end.
  repeat split.
  intros Hlt.
  match goal with
  | H : increasing _ _ _ = true |- _ =>
      unfold increasing in H; rewrite <- !scaled_recip in H;
      destruct (Z.eqb_spec n 65535); [lia | exact H]
  end.
Qed.

(** A float triplet with Z = 3.75. *)
Lemma float_through_z_in_range_witness :
  let r := VertexReader.make 0 (layout_example DEC_FLOAT_3 0 0)
                             GE_VTYPE_THROUGH in
  result (VertexReader.ReadPosThroughZ16 float_fraction_memory r no_reports)
  = Some [F32.of_int 1; F32.of_int 1; F32.of_int 3].
Proof.
  intros r.
  assert (Hr : 0 <= 3 <= 65535) by lia.
  exact (proj1 (proj2 (float_through_z_in_range float_fraction_memory r
                         no_reports (F32.of_int 1) (F32.of_int 1)
                         (F32.div (F32.of_int 15) (F32.of_int 4)) 3
                         eq_refl eq_refl eq_refl eq_refl eq_refl eq_refl
                         Hr))).
Defined.

(** X8.  In through mode a signed 8-bit position has an unsigned 8-bit
    Z [z]: [ReadPos] returns [z * (1 / 255)], a value in [0, 1], and
    [ReadPosThroughZ16] returns [z] itself, a value in [0, 255] that is
    not brought to the 16-bit range; X and Y are the signed bytes. *)
Theorem s8_through_z (m : Memory) (r : VertexReader.t) (st : Reporting)
        (x y z : Z) :
  let a := VertexReader.data_ r + posoff (VertexReader.decFmt_ r) in
  posfmt (VertexReader.decFmt_ r) = DEC_S8_3 ->
  VertexReader.isThrough r = true ->
  load_s8 m a = Some x ->
  load_s8 m (a + 1) = Some y ->
  load_u8 m (a + 2) = Some z ->
  result (VertexReader.ReadPos m r st)
  = Some [F32.of_int x; F32.of_int y; scaled 255 z] /\
  F32.leb F32.zero (scaled 255 z) = true /\
  F32.leb (scaled 255 z) (F32.of_int 1) = true /\
  result (VertexReader.ReadPosThroughZ16 m r st)
  = Some [F32.of_int x; F32.of_int y; F32.of_int z] /\
  F32.leb F32.zero (F32.of_int z) = true /\
  F32.leb (F32.of_int z) (F32.of_int 255) = true.
Proof.
  intros a Hfmt Hthr Hx Hy Hz. subst a.
  pose proof (unsigned8_all z (load_u8_range _ _ _ Hz)) as Hok.
  split_checks Hok.
  match goal with
  | H : through_z8_ok _ _ = true |- _ =>
      unfold through_z8_ok in H; cbv zeta in H; split_checks H;
      rewrite <- ?scaled_recip in *
  end.
  unfold VertexReader.ReadPos, VertexReader.ReadPosThroughZ16,
    VertexReader.lit.
  rewrite Hfmt, Hthr.
  change (DEC_S8_3 =? DEC_FLOAT_3) with false.
  change (DEC_S8_3 =? DEC_S16_3) with false.
  change (DEC_S8_3 =? DEC_S8_3) with true.
  cbv iota. run_read. fold (scaled 255 z).
  repeat split; assumption.
Qed.

Lemma s8_through_z_witness :
  let r := VertexReader.make 0 (layout_example DEC_S8_3 0 0)
                             GE_VTYPE_THROUGH in
  result (VertexReader.ReadPosThroughZ16 s8_memory r no_reports)
  = Some [F32.of_int 127; F32.of_int (-128); F32.of_int 1].
Proof.
  intros r.
  exact (proj1 (proj2 (proj2 (proj2
           (s8_through_z s8_memory r no_reports 127 (-128) 1
              eq_refl eq_refl eq_refl eq_refl eq_refl))))).
Defined.

(** ** Texture coordinates and colors *)

(** X9.  [ReadUV] scales an unsigned 8-bit pair by [1 / 128] and an
    unsigned 16-bit pair by [1 / 32768]: every component lies in
    [0, 2), and it is 1.0 exactly when the stored value is 128, or
    32768. *)
Theorem uv_range (m : Memory) (r : VertexReader.t) (st : Reporting)
        (u v : Z) :
  let a := VertexReader.data_ r + uvoff (VertexReader.decFmt_ r) in
  (uvfmt (VertexReader.decFmt_ r) = DEC_U8_2 ->
   load_u8 m a = Some u -> load_u8 m (a + 1) = Some v ->
   result (VertexReader.ReadUV m r st)
   = Some [scaled 128 u; scaled 128 v] /\
   Forall (fun w =>
             F32.leb F32.zero (scaled 128 w) = true /\
             F32.ltb (scaled 128 w) (F32.of_int 2) = true /\
             (F32.eqb (scaled 128 w) (F32.of_int 1) = true <-> w = 128))
          [u; v]) /\
  (uvfmt (VertexReader.decFmt_ r) = DEC_U16_2 ->
   load_u16 m a = Some u -> load_u16 m (a + 2) = Some v ->
   result (VertexReader.ReadUV m r st)
   = Some [scaled 32768 u; scaled 32768 v] /\
   Forall (fun w =>
             F32.leb F32.zero (scaled 32768 w) = true /\
             F32.ltb (scaled 32768 w) (F32.of_int 2) = true /\
             (F32.eqb (scaled 32768 w) (F32.of_int 1) = true <-> w = 32768))
          [u; v]).
Proof.
  intros a. subst a.
  assert (Heq : forall (b : bool) (x y : Z),
             Bool.eqb b (x =? y) = true -> (b = true <-> x = y)).
  { intros b x y H. apply Bool.eqb_prop in H. subst b. apply Z.eqb_eq. }
  unfold VertexReader.ReadUV, VertexReader.lit. cbv zeta. split.
  - intros Hfmt Hu Hv. rewrite Hfmt.
    change (DEC_U8_2 =? DEC_U8_2) with true. cbv iota.
    split; [run_read; reflexivity |].
    repeat constructor;
      match goal with
      | |- context [scaled 128 ?w] =>
          let H := fresh "Hok" in
          assert (H := unsigned8_all w
                         ltac:(eapply load_u8_range; eassumption));
          split_checks H; unfold uv_ok in H; cbv zeta in H; split_checks H;
          rewrite <- ?scaled_recip in *
      end; try assumption; now apply Heq.
  - intros Hfmt Hu Hv. rewrite Hfmt.
    change (DEC_U16_2 =? DEC_U8_2) with false.
    change (DEC_U16_2 =? DEC_U16_2) with true. cbv iota.
    split; [run_read; reflexivity |].
    repeat constructor;
      match goal with
      | |- context [scaled 32768 ?w] =>
          let H := fresh "Hok" in
          assert (H := unsigned16_all w
                         ltac:(eapply load_u16_range; eassumption));
          split_checks H;
          match goal with
          | H' : uv_ok _ _ _ = true |- _ =>
              unfold uv_ok in H'; cbv zeta in H'; split_checks H';
              rewrite <- ?scaled_recip in *
          end
      end; try assumption; now apply Heq.
Qed.

Lemma uv_range_witness :
  let r8 := VertexReader.make 0 (uv_layout DEC_U8_2) 0 in
  let r16 := VertexReader.make 0 (uv_layout DEC_U16_2) 0 in
  result (VertexReader.ReadUV uv_memory r8 no_reports)
  = Some [scaled 128 128; scaled 128 255] /\
  result (VertexReader.ReadUV uv_memory r16 no_reports)
  = Some [scaled 32768 65408; scaled 32768 32768].
Proof.
  intros r8 r16. split.
  - exact (proj1 (proj1 (uv_range uv_memory r8 no_reports 128 255)
                    eq_refl eq_refl eq_refl)).
  - exact (proj1 (proj2 (uv_range uv_memory r16 no_reports 65408 32768)
                    eq_refl eq_refl eq_refl)).
Defined.

(** X10.  For a first color of four 8-bit components [ReadColor0_8888]
    returns the stored bytes and [ReadColor0] returns each of them scaled
    by [1 / 255]: a value in [0, 1] that is 1.0 exactly for 255.  Stored
    as four floats, those values are read back by [ReadColor0_8888] as
    the bytes they came from. *)
Theorem color0_bytes_and_floats (m m' : Memory) (r r' : VertexReader.t)
        (st : Reporting) (b0 b1 b2 b3 : Z) :
  let a := VertexReader.data_ r + c0off (VertexReader.decFmt_ r) in
  let a' := VertexReader.data_ r' + c0off (VertexReader.decFmt_ r') in
  c0fmt (VertexReader.decFmt_ r) = DEC_U8_4 ->
  load_u8 m a = Some b0 -> load_u8 m (a + 1) = Some b1 ->
  load_u8 m (a + 2) = Some b2 -> load_u8 m (a + 3) = Some b3 ->
  result (VertexReader.ReadColor0_8888 m r st) = Some [b0; b1; b2; b3] /\
  result (VertexReader.ReadColor0 m r st)
  = Some (map (scaled 255) [b0; b1; b2; b3]) /\
  Forall (fun b =>
            F32.leb F32.zero (scaled 255 b) = true /\
            F32.leb (scaled 255 b) (F32.of_int 1) = true /\
            (F32.eqb (scaled 255 b) (F32.of_int 1) = true <-> b = 255))
         [b0; b1; b2; b3] /\
  (c0fmt (VertexReader.decFmt_ r') = DEC_FLOAT_4 ->
   load_float m' a' = Some (scaled 255 b0) ->
   load_float m' (a' + 4) = Some (scaled 255 b1) ->
   load_float m' (a' + 8) = Some (scaled 255 b2) ->
   load_float m' (a' + 12) = Some (scaled 255 b3) ->
   result (VertexReader.ReadColor0_8888 m' r' st) = Some [b0; b1; b2; b3]).
Proof.
  intros a a' Hfmt H0 H1 H2 H3. subst a a'.
  assert (Heq : forall (b : bool) (x y : Z),
             Bool.eqb b (x =? y) = true -> (b = true <-> x = y)).
  { intros b x y H. apply Bool.eqb_prop in H. subst b. apply Z.eqb_eq. }
  assert (Hok : forall b,
             0 <= b < 256 ->
             F32.leb F32.zero (scaled 255 b) = true /\
             F32.leb (scaled 255 b) (F32.of_int 1) = true /\
             (F32.eqb (scaled 255 b) (F32.of_int 1) = true <-> b = 255) /\
             F32.to_u8 (F32.mul (scaled 255 b) (F32.of_int 255)) = Some b).
  { intros b Hb. pose proof (unsigned8_all b Hb) as H. split_checks H.
    match goal with
    | H' : color_ok _ _ = true |- _ =>
        unfold color_ok in H'; cbv zeta in H'; split_checks H';
        rewrite <- ?scaled_recip in *
    end.
    split; [assumption |]. split; [assumption |].
    split; [now apply Heq |].
    destruct (F32.to_u8 (F32.mul (scaled 255 b) (F32.of_int 255)))
      as [v |]; [| discriminate].
    f_equal. now apply Z.eqb_eq. }
  pose proof (Hok b0 (load_u8_range _ _ _ H0)) as (? & ? & ? & T0).
  pose proof (Hok b1 (load_u8_range _ _ _ H1)) as (? & ? & ? & T1).
  pose proof (Hok b2 (load_u8_range _ _ _ H2)) as (? & ? & ? & T2).
  pose proof (Hok b3 (load_u8_range _ _ _ H3)) as (? & ? & ? & T3).
  unfold VertexReader.ReadColor0_8888, VertexReader.ReadColor0,
    VertexReader.lit.
  cbv zeta. rewrite Hfmt. change (DEC_U8_4 =? DEC_U8_4) with true. cbv iota.
  repeat match goal with |- _ /\ _ => split end.
  - run_read. reflexivity.
  - run_read. reflexivity.
  - repeat (apply Forall_cons;
            [split; [assumption | split; assumption] |]).
    apply Forall_nil.
  - intros Hfmt' F0 F1 F2 F3. rewrite Hfmt'.
    change (DEC_FLOAT_4 =? DEC_U8_4) with false.
    change (DEC_FLOAT_4 =? DEC_FLOAT_4) with true. cbv iota.
    run_read. reflexivity.
Qed.

Lemma color0_bytes_and_floats_witness :
  let r := VertexReader.make 0 (c0_layout DEC_U8_4) 0 in
  let rf := VertexReader.make 0 (c0_layout DEC_FLOAT_4) 0 in
  result (VertexReader.ReadColor0_8888 color0_memory r no_reports)
  = Some [255; 128; 0; 64] /\
  result (VertexReader.ReadColor0 color0_memory r no_reports)
  = Some [scaled 255 255; scaled 255 128; scaled 255 0; scaled 255 64] /\
  result (VertexReader.ReadColor0_8888 color0_float_memory rf no_reports)
  = Some [255; 128; 0; 64].
Proof.
  intros r rf.
  pose proof (color0_bytes_and_floats color0_memory color0_float_memory r rf
                no_reports 255 128 0 64 eq_refl eq_refl eq_refl eq_refl
                eq_refl) as (H8 & Hf & _ & Hback).
  split; [exact H8 |]. split; [exact Hf |].
  exact (Hback eq_refl eq_refl eq_refl eq_refl eq_refl).
Defined.

(** ** Signed components and float formats *)

Lemma eqb_iff (b : bool) (x y : Z) :
  Bool.eqb b (x =? y) = true -> (b = true <-> x = y).
Proof. intros H. apply Bool.eqb_prop in H. subst b. apply Z.eqb_eq. Qed.

Lemma signed_component_facts (d v : Z) :
  pos_ok (recip (d + 1)) (d + 1) v && nrm_ok (recip d) d v
  && increasing (recip d) d v = true ->
  (F32.leb (F32.of_int (-1)) (scaled (d + 1) v) = true /\
   (F32.eqb (scaled (d + 1) v) (F32.of_int (-1)) = true <-> v = - (d + 1)))
  /\
  (F32.leb (scaled d v) (F32.of_int 1) = true /\
   (F32.eqb (scaled d v) (F32.of_int 1) = true <-> v = d) /\
   (F32.ltb (scaled d v) (F32.of_int (-1)) = true <-> v = - d - 1) /\
   (v < d -> F32.ltb (scaled d v) (scaled d (v + 1)) = true)).
Proof.
  intros H. split_checks H.
  unfold pos_ok in H. cbv zeta in H. split_checks H.
  match goal with
  | H' : nrm_ok _ _ _ = true |- _ =>
      unfold nrm_ok in H'; cbv zeta in H'; split_checks H'
  end.
  match goal with
  | H' : increasing _ _ _ = true |- _ => unfold increasing in H'
  end.
  rewrite <- ?scaled_recip in *.
  repeat match goal with
         | H' : Bool.eqb _ (_ =? _) = true |- _ => apply eqb_iff in H'
         end.
  split; [split; assumption |].
  split; [assumption |]. split; [assumption |]. split; [assumption |].
  intros Hlt.
  match goal with
  | H' : (v =? d) || _ = true |- _ =>
      destruct (Z.eqb_spec v d); [lia | exact H']
  end.
Qed.

(** X11.  Outside through mode a signed position component is at least
    -1.0, and -1.0 exactly for the least stored value (-128, -32768).  A
    normal component is at most 1.0, 1.0 exactly for the greatest stored
    value, and below -1.0 exactly for the least one: normals are not
    confined to [-1, 1].  Normal components are strictly increasing in
    the stored value, so no two stored values decode alike. *)
Theorem signed_component_ranges (m : Memory) (r : VertexReader.t)
        (st : Reporting) (v0 v1 v2 : Z) :
  let na := VertexReader.data_ r + nrmoff (VertexReader.decFmt_ r) in
  let pa := VertexReader.data_ r + posoff (VertexReader.decFmt_ r) in
  (VertexReader.isThrough r = false ->
   posfmt (VertexReader.decFmt_ r) = DEC_S8_3 ->
   load_s8 m pa = Some v0 -> load_s8 m (pa + 1) = Some v1 ->
   load_s8 m (pa + 2) = Some v2 ->
   result (VertexReader.ReadPos m r st)
   = Some (map (scaled 128) [v0; v1; v2]) /\
   Forall (fun v =>
             F32.leb (F32.of_int (-1)) (scaled 128 v) = true /\
             (F32.eqb (scaled 128 v) (F32.of_int (-1)) = true <-> v = -128))
          [v0; v1; v2]) /\
  (VertexReader.isThrough r = false ->
   posfmt (VertexReader.decFmt_ r) = DEC_S16_3 ->
   load_s16 m pa = Some v0 -> load_s16 m (pa + 2) = Some v1 ->
   load_s16 m (pa + 4) = Some v2 ->
   result (VertexReader.ReadPos m r st)
   = Some (map (scaled 32768) [v0; v1; v2]) /\
   Forall (fun v =>
             F32.leb (F32.of_int (-1)) (scaled 32768 v) = true /\
             (F32.eqb (scaled 32768 v) (F32.of_int (-1)) = true
              <-> v = -32768))
          [v0; v1; v2]) /\
  (nrmfmt (VertexReader.decFmt_ r) = DEC_S8_3 ->
   load_s8 m na = Some v0 -> load_s8 m (na + 1) = Some v1 ->
   load_s8 m (na + 2) = Some v2 ->
   result (VertexReader.ReadNrm m r st)
   = Some (map (scaled 127) [v0; v1; v2]) /\
   Forall (fun v =>
             F32.leb (scaled 127 v) (F32.of_int 1) = true /\
             (F32.eqb (scaled 127 v) (F32.of_int 1) = true <-> v = 127) /\
             (F32.ltb (scaled 127 v) (F32.of_int (-1)) = true <-> v = -128) /\
             (v < 127 -> F32.ltb (scaled 127 v) (scaled 127 (v + 1)) = true))
          [v0; v1; v2]) /\
  (nrmfmt (VertexReader.decFmt_ r) = DEC_S16_3 ->
   load_s16 m na = Some v0 -> load_s16 m (na + 2) = Some v1 ->
   load_s16 m (na + 4) = Some v2 ->
   result (VertexReader.ReadNrm m r st)
   = Some (map (scaled 32767) [v0; v1; v2]) /\
   Forall (fun v =>
             F32.leb (scaled 32767 v) (F32.of_int 1) = true /\
             (F32.eqb (scaled 32767 v) (F32.of_int 1) = true <-> v = 32767) /\
             (F32.ltb (scaled 32767 v) (F32.of_int (-1)) = true
              <-> v = -32768) /\
             (v < 32767 ->
              F32.ltb (scaled 32767 v) (scaled 32767 (v + 1)) = true))
          [v0; v1; v2]).
Proof.
  intros na pa. subst na pa.
  pose proof (fun v H => signed_component_facts 127 v
                           (signed8_all v H)) as H8.
  pose proof (fun v H => signed_component_facts 32767 v
                           (signed16_all v H)) as H16.
  change (127 + 1) with 128 in H8. change (- 127 - 1) with (-128) in H8.
  change (32767 + 1) with 32768 in H16.
  change (- 32767 - 1) with (-32768) in H16.
  unfold VertexReader.ReadNrm, VertexReader.ReadPos, VertexReader.lit.
  cbv zeta.
  repeat match goal with |- _ /\ _ => split end.
  - intros Hthr Hfmt L0 L1 L2. rewrite Hfmt, Hthr.
    change (DEC_S8_3 =? DEC_FLOAT_3) with false.
    change (DEC_S8_3 =? DEC_S16_3) with false.
    change (DEC_S8_3 =? DEC_S8_3) with true.
    cbv iota. split; [run_read; reflexivity |].
    repeat (apply Forall_cons;
            [eapply H8, load_s8_range; eassumption |]).
    apply Forall_nil.
  - intros Hthr Hfmt L0 L1 L2. rewrite Hfmt, Hthr.
    change (DEC_S16_3 =? DEC_FLOAT_3) with false.
    change (DEC_S16_3 =? DEC_S16_3) with true.
    cbv iota. split; [run_read; reflexivity |].
    repeat (apply Forall_cons;
            [eapply H16, load_s16_range; eassumption |]).
    apply Forall_nil.
  - intros Hfmt L0 L1 L2. rewrite Hfmt.
    change (DEC_S8_3 =? DEC_FLOAT_3) with false.
    change (DEC_S8_3 =? DEC_S16_3) with false.
    change (DEC_S8_3 =? DEC_S8_3) with true.
    cbv iota. split; [run_read; reflexivity |].
    repeat (apply Forall_cons;
            [eapply H8, load_s8_range; eassumption |]).
    apply Forall_nil.
  - intros Hfmt L0 L1 L2. rewrite Hfmt.
    change (DEC_S16_3 =? DEC_FLOAT_3) with false.
    change (DEC_S16_3 =? DEC_S16_3) with true.
    cbv iota. split; [run_read; reflexivity |].
    repeat (apply Forall_cons;
            [eapply H16, load_s16_range; eassumption |]).
    apply Forall_nil.
Qed.

Lemma signed_component_ranges_witness :
  let r := VertexReader.make 0 (layout_example DEC_S8_3 DEC_S8_3 0) 0 in
  F32.ltb (scaled 127 (-128)) (F32.of_int (-1)) = true /\
  F32.eqb (scaled 128 (-128)) (F32.of_int (-1)) = true.
Proof.
  intros r.
  pose proof (signed_component_ranges s8_memory r no_reports 127 (-128) 1)
    as (Hp & _ & Hn & _).
  destruct (Hp eq_refl eq_refl eq_refl eq_refl eq_refl) as [_ Hpf].
  destruct (Hn eq_refl eq_refl eq_refl eq_refl) as [_ Hnf].
  apply Forall_cons_iff in Hpf as [_ Hpf].
  apply Forall_cons_iff in Hpf as [[_ Hp1] _].
  apply Forall_cons_iff in Hnf as [_ Hnf].
  apply Forall_cons_iff in Hnf as [(_ & _ & Hn1 & _) _].
  split; [apply Hn1 | apply Hp1]; reflexivity.
Defined.

(** X12.  The float formats are copied: [ReadNrm], [ReadUV], [ReadColor0]
    and, outside through mode, [ReadPos] return the floats stored at the
    attribute's offset, unscaled and unclamped. *)
Theorem float_formats_are_copied (m : Memory) (r : VertexReader.t)
        (st : Reporting) (w0 w1 w2 w3 : Z) :
  let f := VertexReader.decFmt_ r in
  let d := VertexReader.data_ r in
  Forall (fun w => 0 <= w < 4294967296) [w0; w1; w2; w3] ->
  (nrmfmt f = DEC_FLOAT_3 -> array_at m (d + nrmoff f) 4 [w0; w1; w2] ->
   result (VertexReader.ReadNrm m r st)
   = Some (map F32.of_bits [w0; w1; w2])) /\
  (posfmt f = DEC_FLOAT_3 -> VertexReader.isThrough r = false ->
   array_at m (d + posoff f) 4 [w0; w1; w2] ->
   result (VertexReader.ReadPos m r st)
   = Some (map F32.of_bits [w0; w1; w2])) /\
  (uvfmt f = DEC_FLOAT_2 -> array_at m (d + uvoff f) 4 [w0; w1] ->
   result (VertexReader.ReadUV m r st) = Some (map F32.of_bits [w0; w1])) /\
  (c0fmt f = DEC_FLOAT_4 -> array_at m (d + c0off f) 4 [w0; w1; w2; w3] ->
   result (VertexReader.ReadColor0 m r st)
   = Some (map F32.of_bits [w0; w1; w2; w3])).
Proof.
  intros f d Hall. subst f d.
  assert (H3 : Forall (fun w => 0 <= w < 4294967296) [w0; w1; w2]).
  { rewrite Forall_forall in *. intros w Hw. apply Hall. cbn in *. tauto. }
  assert (H2 : Forall (fun w => 0 <= w < 4294967296) [w0; w1]).
  { rewrite Forall_forall in *. intros w Hw. apply Hall. cbn in *. tauto. }
  unfold VertexReader.ReadNrm, VertexReader.ReadPos, VertexReader.ReadUV,
    VertexReader.ReadColor0, VertexReader.lit.
  cbv zeta.
  repeat match goal with |- _ /\ _ => split end.
  - intros Hfmt Harr. rewrite Hfmt.
    change (DEC_FLOAT_3 =? DEC_FLOAT_3) with true. cbv iota.
    pose proof (load_float_array m _ _ 0 Harr H3 ltac:(cbn; lia)) as L0.
    pose proof (load_float_array m _ _ 1 Harr H3 ltac:(cbn; lia)) as L1.
    pose proof (load_float_array m _ _ 2 Harr H3 ltac:(cbn; lia)) as L2.
    cbn [nth Z.to_nat Pos.to_nat Pos.iter_op Nat.add Z.mul Pos.mul]
      in L0, L1, L2.
    rewrite Z.add_0_r in L0. run_read. reflexivity.
  - intros Hfmt Hthr Harr. rewrite Hfmt, Hthr.
    change (DEC_FLOAT_3 =? DEC_FLOAT_3) with true. cbv iota.
    pose proof (load_float_array m _ _ 0 Harr H3 ltac:(cbn; lia)) as L0.
    pose proof (load_float_array m _ _ 1 Harr H3 ltac:(cbn; lia)) as L1.
    pose proof (load_float_array m _ _ 2 Harr H3 ltac:(cbn; lia)) as L2.
    cbn [nth Z.to_nat Pos.to_nat Pos.iter_op Nat.add Z.mul Pos.mul]
      in L0, L1, L2.
    rewrite Z.add_0_r in L0. run_read. reflexivity.
  - intros Hfmt Harr. rewrite Hfmt.
    change (DEC_FLOAT_2 =? DEC_U8_2) with false.
    change (DEC_FLOAT_2 =? DEC_U16_2) with false.
    change (DEC_FLOAT_2 =? DEC_FLOAT_2) with true. cbv iota.
    pose proof (load_float_array m _ _ 0 Harr H2 ltac:(cbn; lia)) as L0.
    pose proof (load_float_array m _ _ 1 Harr H2 ltac:(cbn; lia)) as L1.
    cbn [nth Z.to_nat Pos.to_nat Pos.iter_op Nat.add Z.mul Pos.mul]
      in L0, L1.
    rewrite Z.add_0_r in L0. run_read. reflexivity.
  - intros Hfmt Harr. rewrite Hfmt.
    change (DEC_FLOAT_4 =? DEC_U8_4) with false.
    change (DEC_FLOAT_4 =? DEC_FLOAT_4) with true. cbv iota.
    pose proof (load_float_array m _ _ 0 Harr Hall ltac:(cbn; lia)) as L0.
    pose proof (load_float_array m _ _ 1 Harr Hall ltac:(cbn; lia)) as L1.
    pose proof (load_float_array m _ _ 2 Harr Hall ltac:(cbn; lia)) as L2.
    pose proof (load_float_array m _ _ 3 Harr Hall ltac:(cbn; lia)) as L3.
    cbn [nth Z.to_nat Pos.to_nat Pos.iter_op Nat.add Z.mul Pos.mul]
      in L0, L1, L2, L3.
    rewrite Z.add_0_r in L0. run_read. reflexivity.
Qed.

Lemma float_formats_are_copied_witness :
  let r := VertexReader.make 0 (layout_example DEC_FLOAT_3 0 0) 0 in
  result (VertexReader.ReadPos float_position_memory_70000 r no_reports)
  = Some [F32.of_int 1; F32.of_int 1; F32.of_int 70000].
Proof.
  intros r.
  assert (Hall : Forall (fun w => 0 <= w < 4294967296)
                        [1065353216; 1065353216; 1200142336; 0])
    by (repeat constructor; cbn; lia).
  pose proof (float_formats_are_copied float_position_memory_70000 r
                no_reports 1065353216 1065353216 1200142336 0 Hall)
    as (_ & Hp & _).
  apply Hp; [reflexivity | reflexivity |].
  exists [], []. split; reflexivity.
Defined.

(** ** Attributes a vertex does not have *)

(** X13.  A vertex without normal, texture coordinate, first or second
    color has the format tag 0 there, for which the read has no case:
    reading the attribute all the same returns zeros and, the first
    time, raises the unsupported-format diagnostic with argument 0.
    Conversely a read that finds a case for its format is a read of an
    attribute the vertex has. *)
Theorem absent_attribute_is_unsupported (m : Memory) (r : VertexReader.t) :
  let f := VertexReader.decFmt_ r in
  let raised_once n msg :=
    {| reported := [n];
       diagnostics := [{| d_name := n; d_message := msg; d_arg := 0 |}] |} in
  (VertexReader.hasNormal r = false ->
   VertexReader.ReadNrm m r no_reports
   = Some (repeat F32.zero 3,
           raised_once "fmtnrm"%string
                       "Reader: Unsupported Nrm Format %d"%string)) /\
  (VertexReader.hasUV r = false ->
   VertexReader.ReadUV m r no_reports
   = Some (repeat F32.zero 2,
           raised_once "fmtuv"%string
                       "Reader: Unsupported UV Format %d"%string)) /\
  (VertexReader.hasColor0 r = false ->
   VertexReader.ReadColor0 m r no_reports
   = Some (repeat F32.zero 4,
           raised_once "fmtc0"%string
                       "Reader: Unsupported C0 Format %d"%string)) /\
  (VertexReader.hasColor1 r = false ->
   VertexReader.ReadColor1 m r no_reports
   = Some (repeat F32.zero 3,
           raised_once "fmtc1"%string
                       "Reader: Unsupported C1 Format %d"%string)) /\
  (supported CallReadNrm f = true -> VertexReader.hasNormal r = true) /\
  (supported CallReadUV f = true -> VertexReader.hasUV r = true) /\
  (supported CallReadColor0 f = true -> VertexReader.hasColor0 r = true) /\
  (supported CallReadColor1 f = true -> VertexReader.hasColor1 r = true).
Proof.
  intros f raised_once. subst f raised_once.
  unfold VertexReader.hasNormal, VertexReader.hasUV, VertexReader.hasColor0,
    VertexReader.hasColor1, VertexReader.ReadNrm, VertexReader.ReadUV,
    VertexReader.ReadColor0, VertexReader.ReadColor1.
  cbv zeta. cbn [supported].
  repeat match goal with |- _ /\ _ => split end;
    intros H;
    try (apply negb_false_iff, Z.eqb_eq in H; rewrite H; reflexivity);
    match goal with
    | |- negb (?x =? 0) = true =>
        destruct (Z.eqb_spec x 0) as [E |]; [| reflexivity];
        rewrite E in H; discriminate H
    end.
Qed.

Lemma absent_attribute_is_unsupported_witness :
  let r := VertexReader.make 0 (layout_example DEC_S16_3 0 0) 0 in
  result (VertexReader.ReadNrm s16_position_memory r no_reports)
  = Some [F32.zero; F32.zero; F32.zero].
Proof.
  intros r.
  pose proof (absent_attribute_is_unsupported s16_position_memory r)
    as (Hn & _).
  cbv zeta in Hn. rewrite (Hn eq_refl). reflexivity.
Defined.
